(** * Comparison creators and blocking-rule normalisation of splink

    A shallow embedding of
      - splink/comparison_library.py
      - splink/comparison_template_library.py
      - splink/blocking_rule_creator_utils.py
    together with the properties their specification states about them.

    Python objects are records of their attributes, an attribute that
    [__init__] sets only on some paths is an [option], and every function
    that can raise returns in the error monad [result]. *)

From stdpp Require Import base option list strings pretty gmap.
From Stdlib Require Import ZArith.

Set Warnings "-register-all".

Open Scope string_scope.
Open Scope Z_scope.
Open Scope list_scope.
Open Scope stdpp_scope.

(** ** Python values *)

(** Plain Python data, as far as the library stores or inspects it.  A float
    is the finite binary64 value [m * 2^e]; only its truth value is ever
    inspected. *)
Inductive pyval :=
| VNone
| VBool (b : bool)
| VInt (z : Z)
| VFloat (m e : Z)
| VStr (s : string)
| VList (items : list pyval)
| VDict (items : list (pyval * pyval)).

(** [bool(v)]: what an [if v:] tests. *)
Definition py_truthy (v : pyval) : bool :=
  match v with
  | VNone => false
  | VBool b => b
  | VInt z => negb (z =? 0)
  | VFloat m _ => negb (m =? 0)
  | VStr s => negb (String.eqb s "")
  | VList l => match l with [] => false | _ => true end
  | VDict d => match d with [] => false | _ => true end
  end.

(** Truth value of a list attribute. *)
Definition nonempty {A} (l : list A) : bool :=
  match l with [] => false | _ => true end.

(** ** Exceptions and the error monad *)

Inductive exn :=
| ValueError (msg : string)
| TypeError (msg : string)
| AttributeError (msg : string)
| KeyError (key : string).

Inductive result (A : Type) :=
| Ok (a : A)
| Raise (e : exn).
Arguments Ok {A} a.
Arguments Raise {A} e.

#[global] Instance result_ret : MRet result := fun _ a => Ok a.
#[global] Instance result_bind : MBind result := fun _ _ f m =>
  match m with
  | Ok a => f a
  | Raise e => Raise e
  end.

#[global] Instance result_fmap : FMap result := fun _ _ f m =>
  match m with
  | Ok a => Ok (f a)
  | Raise e => Raise e
  end.

Definition is_Ok {A} (r : result A) : bool :=
  match r with Ok _ => true | Raise _ => false end.

(** [self.attr] for an attribute that may not have been set. *)
Definition getattr {A} (cls attr : string) (field : option A) : result A :=
  match field with
  | Some a => Ok a
  | None =>
      Raise (AttributeError
        ("'" +:+ cls +:+ "' object has no attribute '" +:+ attr +:+ "'"))
  end.

(** ** Column expressions *)

(** Modelled from the spec: splink/column_expression.py is not under src/.
    A column expression is a base column and the transformations applied to
    it, in order; [regex_extract] and [try_parse_date] return a new
    expression with one more step. *)
Inductive ColumnOp :=
| RegexExtract (pattern : string)
| TryParseDate (date_format : option string).

Record ColumnExpression := {
  sql_expression : string;
  operations : list ColumnOp;
}.

Definition with_op (col : ColumnExpression) (op : ColumnOp) : ColumnExpression :=
  {| sql_expression := sql_expression col;
     operations := operations col ++ [op] |}.

Definition regex_extract (col : ColumnExpression) (pattern : string) :=
  with_op col (RegexExtract pattern).

Definition try_parse_date (col : ColumnExpression) (date_format : option string) :=
  with_op col (TryParseDate date_format).

(** An argument annotated [Union[str, ColumnExpression]]. *)
Inductive col_arg :=
| ColName (name : string)
| ColExpr (col : ColumnExpression).

(** Modelled from the spec: [ComparisonCreator.__init__] is not under src/;
    it stores the column it is given as a column expression, a bare name
    becoming an expression without transformations. *)
Definition instantiate_if_str (c : col_arg) : ColumnExpression :=
  match c with
  | ColName name => {| sql_expression := name; operations := [] |}
  | ColExpr col => col
  end.

(** The same for a dict of columns; a column given as [None] stays [None]. *)
Definition instantiate_columns (cols : gmap string (option col_arg))
    : gmap string (option ColumnExpression) :=
  (λ c : option col_arg, instantiate_if_str <$> c) <$> cols.

(** ** Comparison levels *)

(** Modelled from the spec: splink/comparison_level_library.py is not under
    src/.  A level creator is the tagged variant of the spec's data model;
    each constructor records the arguments of the call that built it, [None]
    standing for a keyword the call did not pass.  What the constructors
    themselves check of their arguments is not modelled. *)
Inductive ComparisonLevelCreator :=
| NullLevel (col : ColumnExpression)
            (valid_string_pattern : option pyval)
            (invalid_dates_as_null : option bool)
| ExactMatchLevel (col : ColumnExpression)
                  (term_frequency_adjustments : option bool)
| LevenshteinLevel (col : ColumnExpression) (threshold : pyval)
| DamerauLevenshteinLevel (col : ColumnExpression) (threshold : pyval)
| JaroLevel (col : ColumnExpression) (threshold : pyval)
| JaroWinklerLevel (col : ColumnExpression) (threshold : pyval)
| DatediffLevel (col : ColumnExpression) (date_threshold date_metric : pyval)
| DistanceInKMLevel (lat_col long_col : option ColumnExpression)
                    (km_threshold : pyval)
| CustomLevel (kwargs : list (string * pyval))
| And (children : list ComparisonLevelCreator)
| ElseLevel.

Definition is_fuzzy (c : ComparisonLevelCreator) : bool :=
  match c with
  | LevenshteinLevel _ _ | DamerauLevenshteinLevel _ _
  | JaroLevel _ _ | JaroWinklerLevel _ _ => true
  | _ => false
  end.

Definition is_datediff (c : ComparisonLevelCreator) : bool :=
  match c with DatediffLevel _ _ _ => true | _ => false end.


Definition is_null (c : ComparisonLevelCreator) : bool :=
  match c with NullLevel _ _ _ => true | _ => false end.

Definition is_else (c : ComparisonLevelCreator) : bool :=
  match c with ElseLevel => true | _ => false end.

Definition is_exact_match (c : ComparisonLevelCreator) : bool :=
  match c with ExactMatchLevel _ _ => true | _ => false end.

Definition is_distance_in_km (c : ComparisonLevelCreator) : bool :=
  match c with DistanceInKMLevel _ _ _ => true | _ => false end.

(** The class a fuzzy metric name selects. *)
Inductive fuzzy_class :=
| DamerauLevenshteinCls
| JaroCls
| JaroWinklerCls
| LevenshteinCls.

(** [cls(col, threshold)] *)
Definition fuzzy_call (cls : fuzzy_class)
    (col : ColumnExpression) (threshold : pyval) : ComparisonLevelCreator :=
  match cls with
  | DamerauLevenshteinCls => DamerauLevenshteinLevel col threshold
  | JaroCls => JaroLevel col threshold
  | JaroWinklerCls => JaroWinklerLevel col threshold
  | LevenshteinCls => LevenshteinLevel col threshold
  end.

(** ** Blocking rule creators and arbitrary arguments *)

(** Modelled from the spec: splink/blocking_rule_library.py is not under
    src/.  [CustomRule] records the positional and keyword arguments of its
    constructor call; [OtherRule] is any other [BlockingRuleCreator].  Which
    keywords the constructor accepts is not modelled. *)
Inductive BlockingRuleCreator :=
| CustomRule (args : list pyval) (kwargs : list (string * pyval))
| OtherRule (cls : string) (args : list pyval).

(** What a caller can hand to a function that takes "a dict, a string or a
    creator": plain data or an object of the library. *)
Inductive pyobj :=
| Data (v : pyval)
| LevelCreator (c : ComparisonLevelCreator)
| RuleCreator (r : BlockingRuleCreator).

Definition isinstance_dict (o : pyobj) : bool :=
  match o with Data (VDict _) => true | _ => false end.

Definition isinstance_str (o : pyobj) : bool :=
  match o with Data (VStr _) => true | _ => false end.

Definition isinstance_BlockingRuleCreator (o : pyobj) : bool :=
  match o with RuleCreator _ => true | _ => false end.


(** Builtins whose result only ever ends up inside a message or a
    description: [str(x)], [repr(x)], [str(type(x))] and [s.title()].  The
    development is parametric in them. *)
Class PyBuiltins := {
  py_str : pyobj → string;
  py_repr : pyobj → string;
  py_type_str : pyobj → string;
  str_title : string → string;
}.

(** [ColumnExpression.name_l], the rendered left-hand column; its rendering
    lives in the column expression module. *)
Class ColumnNames := {
  name_l : ColumnExpression → string;
}.

(** [type(x).__name__], which the message of an [AttributeError] quotes. *)
Class PyTypeNames := {
  py_type_name : pyobj → string;
}.

(** [ColumnExpression.label] and [ColumnExpression.output_column_name];
    both are computed in the column expression module. *)
Class ColumnLabels := {
  label : ColumnExpression → string;
  output_column_name : ColumnExpression → string;
}.

(** [BlockingRuleCreator.get_blocking_rule(sql_dialect)] and the type of the
    blocking rules it returns; both belong to modules that are not under
    src/. *)
Class RuleCompiler := {
  BlockingRule : Type;
  get_blocking_rule : BlockingRuleCreator → string → result BlockingRule;
}.

(** Calling with a dict expanded into keyword arguments: the keys of the
    dict become the keyword names, and must be strings. *)
Definition keyword (kv : pyval * pyval) : result (string * pyval) :=
  match kv.1 with
  | VStr k => Ok (k, kv.2)
  | _ => Raise (TypeError "keywords must be strings")
  end.

Definition expand_kwargs (d : list (pyval * pyval)) : result (list (string * pyval)) :=
  mapM keyword d.

(** Modelled from the spec: splink/misc.py is not under src/.
    [[*ensure_is_iterable(a)]]: a list is taken as it is, a dict gives its
    keys, any scalar (a string included) becomes a one-element list. *)
Definition ensure_is_iterable (a : pyval) : list pyval :=
  match a with
  | VList l => l
  | VDict d => d.*1
  | _ => [a]
  end.

(** [", ".join(map(str, thresholds))] *)
Definition comma_separated `{PyBuiltins} (thresholds : list pyval) : string :=
  String.concat ", " ((λ t, py_str (Data t)) <$> thresholds).

(** ["s" if len(l) > 1 else ""] *)
Definition plural {A} (l : list A) : string :=
  if bool_decide (1 < length l)%nat then "s" else "".

(** ** blocking_rule_creator_utils.py *)

Definition to_blocking_rule_creator (blocking_rule_creator : pyobj) : result pyobj :=
  match blocking_rule_creator with
  | Data (VDict d) =>
      kwargs ← expand_kwargs d;
      mret (RuleCreator (CustomRule [] kwargs))
  | Data (VStr s) => mret (RuleCreator (CustomRule [VStr s] []))
  | _ => mret blocking_rule_creator
  end.

(** The argument of [blocking_rule_args_to_list_of_blocking_rules]: one
    string or creator, or a list of them. *)
Inductive blocking_rule_args :=
| SingleArg (o : pyobj)
| ListArg (l : list pyobj).

(** [ensure_is_iterable] on such an argument: a list is iterated, plain data
    as [ensure_is_iterable] says, any other single object becomes a
    one-element list. *)
Definition ensure_is_iterable_args (a : blocking_rule_args) : list pyobj :=
  match a with
  | ListArg l => l
  | SingleArg (Data v) => Data <$> ensure_is_iterable v
  | SingleArg o => [o]
  end.

(** [br.get_blocking_rule(sql_dialect)]: only a rule creator has the method. *)
Definition call_get_blocking_rule `{PyTypeNames} `{RuleCompiler}
    (sql_dialect : string) (br : pyobj) : result BlockingRule :=
  match br with
  | RuleCreator r => get_blocking_rule r sql_dialect
  | _ =>
      Raise (AttributeError
        ("'" +:+ py_type_name br +:+ "' object has no attribute 'get_blocking_rule'"))
  end.

Definition blocking_rule_args_to_list_of_blocking_rules `{PyTypeNames} `{RuleCompiler}
    (blocking_rule_args : blocking_rule_args) (sql_dialect : string)
    : result (list BlockingRule) :=
  rules_as_creators ←
    mapM to_blocking_rule_creator (ensure_is_iterable_args blocking_rule_args);
  rules_as_brs ← mapM (call_get_blocking_rule sql_dialect) rules_as_creators;
  mret rules_as_brs.

(** ** comparison_library.py *)

Module CustomComparison.

Record t := {
  _output_column_name : string;
  _comparison_levels : list pyobj;
  _description : option string;
}.

Definition init (output_column_name : string) (comparison_levels : list pyobj)
    (description : option string) : t :=
  {| _output_column_name := output_column_name;
     _comparison_levels := comparison_levels;
     _description := description |}.

Section methods.
Context `{PyBuiltins}.

Definition _convert_to_creator (cl : pyobj) : result ComparisonLevelCreator :=
  match cl with
  | LevelCreator c => mret c
  | Data (VDict d) =>
      kwargs ← expand_kwargs d;
      mret (CustomLevel kwargs)
  | _ =>
      Raise (ValueError
        ("`comparison_levels` entries must be `dict` or `ComparisonLevelCreator, "
         +:+ "but found type " +:+ py_type_str cl
         +:+ " for entry " +:+ py_str cl))
  end.

Definition create_comparison_levels (self : t)
    : result (list ComparisonLevelCreator) :=
  mapM _convert_to_creator (_comparison_levels self).

End methods.

Definition create_description (self : t) : string :=
  match _description self with
  | Some description => description
  | None => "Comparison for " +:+ _output_column_name self
  end.

Definition create_output_column_name (self : t) : string :=
  _output_column_name self.

End CustomComparison.

Module ExactMatch.

Record t := {
  term_frequency_adjustments : bool;
  col_expression : ColumnExpression;
}.

Record args := {
  col_name : col_arg;
  arg_term_frequency_adjustments : bool;
}.

Definition defaults (col_name : col_arg) : args :=
  {| col_name := col_name; arg_term_frequency_adjustments := false |}.

Definition init (a : args) : t :=
  {| term_frequency_adjustments := arg_term_frequency_adjustments a;
     col_expression := instantiate_if_str (col_name a) |}.

Definition create_comparison_levels (self : t) : list ComparisonLevelCreator :=
  [ NullLevel (col_expression self) None None;
    ExactMatchLevel (col_expression self) (Some (term_frequency_adjustments self));
    ElseLevel ].

Definition create_description `{ColumnLabels} (self : t) : string :=
  "Exact match '" +:+ label (col_expression self) +:+ "' vs. anything else".

Definition create_output_column_name `{ColumnLabels} (self : t) : string :=
  output_column_name (col_expression self).

End ExactMatch.

Module LevenshteinAtThresholds.

Record t := {
  thresholds : list pyval;
  col_expression : ColumnExpression;
}.

Record args := {
  col_name : col_arg;
  distance_threshold_or_thresholds : pyval;
}.

Definition defaults (col_name : col_arg) : args :=
  {| col_name := col_name;
     distance_threshold_or_thresholds := VList [VInt 1; VInt 2] |}.

Definition init (a : args) : t :=
  {| thresholds := ensure_is_iterable (distance_threshold_or_thresholds a);
     col_expression := instantiate_if_str (col_name a) |}.

Definition create_comparison_levels (self : t) : list ComparisonLevelCreator :=
  [ NullLevel (col_expression self) None None;
    ExactMatchLevel (col_expression self) None ]
  ++ (LevenshteinLevel (col_expression self) <$> thresholds self)
  ++ [ ElseLevel ].

Definition create_description `{PyBuiltins} `{ColumnLabels} (self : t) : string :=
  let comma_separated_thresholds_string := comma_separated (thresholds self) in
  "Exact match '" +:+ label (col_expression self) +:+ "' vs. "
  +:+ "Levenshtein distance at thresholds "
  +:+ comma_separated_thresholds_string +:+ " vs. "
  +:+ "anything else".

Definition create_output_column_name `{ColumnLabels} (self : t) : string :=
  output_column_name (col_expression self).

End LevenshteinAtThresholds.

Module DatediffAtThresholds.

Record t := {
  date_metrics : list pyval;
  date_thresholds : list pyval;
  cast_strings_to_dates : bool;
  date_format : option string;
  term_frequency_adjustments : bool;
  invalid_dates_as_null : bool;
  col_expression : ColumnExpression;
}.

Record args := {
  col_name : col_arg;
  arg_date_metrics : pyval;
  arg_date_thresholds : pyval;
  arg_cast_strings_to_dates : bool;
  arg_date_format : option string;
  arg_term_frequency_adjustments : bool;
  arg_invalid_dates_as_null : bool;
}.

(** [date_metrics] and [date_thresholds] are keyword-only and have no
    default. *)
Definition defaults (col_name : col_arg) (date_metrics date_thresholds : pyval) : args :=
  {| col_name := col_name;
     arg_date_metrics := date_metrics;
     arg_date_thresholds := date_thresholds;
     arg_cast_strings_to_dates := false;
     arg_date_format := None;
     arg_term_frequency_adjustments := false;
     arg_invalid_dates_as_null := true |}.

Definition init (a : args) : t :=
  {| date_metrics := ensure_is_iterable (arg_date_metrics a);
     date_thresholds := ensure_is_iterable (arg_date_thresholds a);
     cast_strings_to_dates := arg_cast_strings_to_dates a;
     date_format := arg_date_format a;
     term_frequency_adjustments := arg_term_frequency_adjustments a;
     invalid_dates_as_null := arg_invalid_dates_as_null a;
     col_expression := instantiate_if_str (col_name a) |}.

Definition create_comparison_levels (self : t) : list ComparisonLevelCreator :=
  let col := col_expression self in
  let null_col :=
    if invalid_dates_as_null self
    then try_parse_date col (date_format self) else col in
  let date_diff_col :=
    if cast_strings_to_dates self
    then try_parse_date col (date_format self) else col in
  [ NullLevel null_col None None;
    ExactMatchLevel (col_expression self) (Some (term_frequency_adjustments self)) ]
  ++ ((λ '(date_threshold, date_metric),
         DatediffLevel date_diff_col date_threshold date_metric)
      <$> zip (date_thresholds self) (date_metrics self))
  ++ [ ElseLevel ].

Definition create_description `{PyBuiltins} `{ColumnLabels} (self : t) : string :=
  "Exact match '" +:+ label (col_expression self) +:+ "' vs. "
  +:+ "date difference at thresholds "
  +:+ py_str (Data (VList (date_thresholds self))) +:+ " "
  +:+ "with metrics " +:+ py_str (Data (VList (date_metrics self))) +:+ " vs. "
  +:+ "anything else".

Definition create_output_column_name `{ColumnLabels} (self : t) : string :=
  output_column_name (col_expression self).

End DatediffAtThresholds.

(** ** comparison_template_library.py *)

(** [d[key]] on a dict with string keys, kept in insertion order. *)
Fixpoint getitem {A} (d : list (string * A)) (key : string) : result A :=
  match d with
  | [] => Raise (KeyError key)
  | (k, v) :: d' => if String.eqb k key then Ok v else getitem d' key
  end.

(** [m[key]] on a dict whose order is never observed. *)
Definition map_getitem {A} (m : gmap string A) (key : string) : result A :=
  match m !! key with
  | Some v => Ok v
  | None => Raise (KeyError key)
  end.

(** A keyword argument that is a string or [None]. *)
Definition str_or_None (o : option string) : pyval :=
  match o with Some s => VStr s | None => VNone end.

Definition _fuzzy_levels : list (string * fuzzy_class) :=
  [ ("damerau_levenshtein", DamerauLevenshteinCls);
    ("jaro", JaroCls);
    ("jaro_winkler", JaroWinklerCls);
    ("levenshtein", LevenshteinCls) ].

Definition _AVAILABLE_METRICS_STRING : string :=
  String.concat ", " ((λ x, "'" +:+ x +:+ "'") <$> _fuzzy_levels.*1).

(** The [try: ... except KeyError: raise ValueError(...)] block that
    [DateComparison.__init__] and [EmailComparison.__init__] share. *)
Definition lookup_fuzzy_level `{PyBuiltins} (fuzzy_metric : string) : result fuzzy_class :=
  match getitem _fuzzy_levels fuzzy_metric with
  | Ok cls => Ok cls
  | Raise (KeyError _) =>
      Raise (ValueError
        ("Invalid value for fuzzy_metric=" +:+ py_repr (Data (VStr fuzzy_metric))
         +:+ ".  " +:+ "Must choose one of: " +:+ _AVAILABLE_METRICS_STRING +:+ "."))
  | Raise e => Raise e
  end.

Module DateComparison.

Record t := {
  fuzzy_thresholds : list pyval;
  date_thresholds : list pyval;
  date_metrics : list pyval;
  date_format : option string;
  invalid_dates_as_null : bool;
  separate_1st_january : bool;
  exact_match : bool;
  fuzzy_level : option fuzzy_class;
  fuzzy_metric : option string;
  col_expression : ColumnExpression;
}.

Record args := {
  col_name : col_arg;
  arg_date_format : option string;
  arg_invalid_dates_as_null : bool;
  include_exact_match_level : bool;
  arg_separate_1st_january : bool;
  arg_fuzzy_metric : string;
  arg_fuzzy_thresholds : pyval;
  datediff_thresholds : pyval;
  datediff_metrics : pyval;
}.

Definition defaults (col_name : col_arg) : args :=
  {| col_name := col_name;
     arg_date_format := None;
     arg_invalid_dates_as_null := false;
     include_exact_match_level := true;
     arg_separate_1st_january := false;
     arg_fuzzy_metric := "damerau_levenshtein";
     arg_fuzzy_thresholds := VList [VInt 1];
     datediff_thresholds := VList [VInt 1; VInt 1; VInt 10];
     datediff_metrics := VList [VStr "month"; VStr "year"; VStr "year"] |}.

Section methods.
Context `{PyBuiltins} `{ColumnNames}.

Definition init (a : args) : result t :=
  let fuzzy_thresholds := ensure_is_iterable (arg_fuzzy_thresholds a) in
  let date_thresholds := ensure_is_iterable (datediff_thresholds a) in
  let date_metrics := ensure_is_iterable (datediff_metrics a) in
  fuzzy ←
    (if nonempty fuzzy_thresholds then
       fuzzy_level ← lookup_fuzzy_level (arg_fuzzy_metric a);
       mret (Some fuzzy_level, Some (arg_fuzzy_metric a))
     else mret (None, None));
  mret {| fuzzy_thresholds := fuzzy_thresholds;
          date_thresholds := date_thresholds;
          date_metrics := date_metrics;
          date_format := arg_date_format a;
          invalid_dates_as_null := arg_invalid_dates_as_null a;
          separate_1st_january := arg_separate_1st_january a;
          exact_match := include_exact_match_level a;
          fuzzy_level := fuzzy.1;
          fuzzy_metric := fuzzy.2;
          col_expression := instantiate_if_str (col_name a) |}.

(** The level appended when [separate_1st_january] is set. *)
Definition first_january_level (col_expression : ColumnExpression)
    : ComparisonLevelCreator :=
  And [ CustomLevel
          [ ("sql_condition",
             VStr ("SUBSTR(" +:+ name_l col_expression +:+ ", 6, 5) = '01-01'"));
            ("label_for_charts", VStr "Match 1st Jan.") ];
        ExactMatchLevel col_expression None ].

Definition create_comparison_levels (self : t)
    : result (list ComparisonLevelCreator) :=
  let col_expression := col_expression self in
  let levels :=
    [ NullLevel col_expression
        (Some (str_or_None (date_format self)))
        (Some (invalid_dates_as_null self)) ] in
  let levels :=
    if separate_1st_january self
    then levels ++ [ first_january_level col_expression ]
    else levels in
  let levels :=
    if exact_match self
    then levels ++ [ ExactMatchLevel col_expression None ]
    else levels in
  levels ←
    (if nonempty (fuzzy_thresholds self) then
       fuzzy_level ← getattr "DateComparison" "fuzzy_level" (fuzzy_level self);
       mret (levels ++ (fuzzy_call fuzzy_level col_expression <$> fuzzy_thresholds self))
     else mret levels);
  let levels :=
    if nonempty (date_thresholds self)
    then levels ++
           ((λ '(threshold, metric), DatediffLevel col_expression threshold metric)
            <$> zip (date_thresholds self) (date_metrics self))
    else levels in
  mret (levels ++ [ ElseLevel ]).

(** [f"{m.title()}(s): {v}"]; only a string has [title]. *)
Definition datediff_item (vm : pyval * pyval) : result string :=
  match vm.2 with
  | VStr m => Ok (str_title m +:+ "(s): " +:+ py_str (Data vm.1))
  | m =>
      Raise (AttributeError
        (py_type_str (Data m) +:+ " object has no attribute 'title'"))
  end.

Definition create_description (self : t) : result string :=
  let comparison_desc := "" in
  let comparison_desc :=
    if exact_match self then
      let comparison_desc := comparison_desc +:+ "Exact match " in
      let comparison_desc :=
        if separate_1st_january self
        then comparison_desc +:+ "(with separate 1st Jan) "
        else comparison_desc in
      comparison_desc +:+ "vs. "
    else comparison_desc in
  comparison_desc ←
    (if nonempty (fuzzy_thresholds self) then
       let comma_separated_thresholds_string :=
         comma_separated (fuzzy_thresholds self) in
       let plural := plural (fuzzy_thresholds self) in
       fuzzy_metric ← getattr "DateComparison" "fuzzy_metric" (fuzzy_metric self);
       mret (fuzzy_metric +:+ " at threshold" +:+ plural +:+ " "
             +:+ comma_separated_thresholds_string +:+ " vs. ")
     else mret comparison_desc);
  comparison_desc ←
    (if nonempty (date_thresholds self) then
       items ← mapM datediff_item (zip (date_thresholds self) (date_metrics self));
       let datediff_separated_thresholds_string := String.concat ", " items in
       let plural := plural (date_thresholds self) in
       mret (comparison_desc +:+ "dates within the following threshold" +:+ plural
             +:+ " " +:+ datediff_separated_thresholds_string +:+ " vs. ")
     else mret comparison_desc);
  mret (comparison_desc +:+ "anything else").

End methods.

Definition create_output_column_name `{ColumnLabels} (self : t) : string :=
  output_column_name (col_expression self).

End DateComparison.

Definition _VALID_POSTCODE_REGEX : string :=
  "^[A-Za-z]{1,2}[0-9][A-Za-z0-9]? [0-9][A-Za-z]{2}$".

Module PostcodeComparison.

Definition SECTOR_REGEX : string := "^[A-Za-z]{1,2}[0-9][A-Za-z0-9]? [0-9]".
Definition DISTRICT_REGEX : string := "^[A-Za-z]{1,2}[0-9][A-Za-z0-9]?".
Definition AREA_REGEX : string := "^[A-Za-z]{1,2}".

Record t := {
  valid_postcode_regex : option string;
  full_match : bool;
  sector_match : bool;
  district_match : bool;
  area_match : bool;
  km_thresholds : option (list pyval);
  col_expressions : gmap string (option ColumnExpression);
}.

Record args := {
  col_name : col_arg;
  invalid_postcodes_as_null : bool;
  arg_valid_postcode_regex : string;
  include_full_match_level : bool;
  include_sector_match_level : bool;
  include_district_match_level : bool;
  include_area_match_level : bool;
  lat_col : option col_arg;
  long_col : option col_arg;
  arg_km_thresholds : pyval;
}.

Definition defaults (col_name : col_arg) : args :=
  {| col_name := col_name;
     invalid_postcodes_as_null := false;
     arg_valid_postcode_regex := _VALID_POSTCODE_REGEX;
     include_full_match_level := true;
     include_sector_match_level := true;
     include_district_match_level := true;
     include_area_match_level := true;
     lat_col := None;
     long_col := None;
     arg_km_thresholds := VList [] |}.

Definition init (a : args) : t :=
  let cols : gmap string (option col_arg) := {[ "postcode" := Some (col_name a) ]} in
  let km_thresholds :=
    if py_truthy (arg_km_thresholds a)
    then Some (ensure_is_iterable (arg_km_thresholds a)) else None in
  let cols :=
    if py_truthy (arg_km_thresholds a)
    then <["longitude" := long_col a]> (<["latitude" := lat_col a]> cols)
    else cols in
  {| valid_postcode_regex :=
       if invalid_postcodes_as_null a then Some (arg_valid_postcode_regex a) else None;
     full_match := include_full_match_level a;
     sector_match := include_sector_match_level a;
     district_match := include_district_match_level a;
     area_match := include_area_match_level a;
     km_thresholds := km_thresholds;
     col_expressions := instantiate_columns cols |}.

(** [self.col_expressions[key]] followed by a method call on it. *)
Definition column (self : t) (key : string) : result ColumnExpression :=
  col ← map_getitem (col_expressions self) key;
  match col with
  | Some col => Ok col
  | None =>
      Raise (AttributeError "'NoneType' object has no attribute 'regex_extract'")
  end.

Section methods.
Context `{PyBuiltins}.

Definition create_comparison_levels (self : t)
    : result (list ComparisonLevelCreator) :=
  full_col_expression ← column self "postcode";
  let sector_col_expression := regex_extract full_col_expression SECTOR_REGEX in
  let district_col_expression := regex_extract full_col_expression DISTRICT_REGEX in
  let area_col_expression := regex_extract full_col_expression AREA_REGEX in
  let levels :=
    [ NullLevel full_col_expression
        (Some (str_or_None (valid_postcode_regex self))) None ] in
  let levels :=
    if full_match self
    then levels ++ [ ExactMatchLevel full_col_expression None ] else levels in
  let levels :=
    if sector_match self
    then levels ++ [ ExactMatchLevel sector_col_expression None ] else levels in
  let levels :=
    if district_match self
    then levels ++ [ ExactMatchLevel district_col_expression None ] else levels in
  let levels :=
    if area_match self
    then levels ++ [ ExactMatchLevel area_col_expression None ] else levels in
  km_thresholds ← getattr "PostcodeComparison" "km_thresholds" (km_thresholds self);
  levels ←
    (if nonempty km_thresholds then
       lat_col_expression ← map_getitem (col_expressions self) "latitude";
       long_col_expression ← map_getitem (col_expressions self) "longitude";
       mret (levels ++
             (DistanceInKMLevel lat_col_expression long_col_expression
              <$> km_thresholds))
     else mret levels);
  mret (levels ++ [ ElseLevel ]).

Definition create_description (self : t) : result string :=
  let comparison_desc := "" in
  let comparison_desc :=
    if full_match self
    then comparison_desc +:+ "Exact match vs. " else comparison_desc in
  let comparison_desc :=
    if sector_match self
    then comparison_desc +:+ "Exact sector match vs. " else comparison_desc in
  let comparison_desc :=
    if district_match self
    then comparison_desc +:+ "Exact district match vs. " else comparison_desc in
  let comparison_desc :=
    if area_match self
    then comparison_desc +:+ "Exact area match vs. " else comparison_desc in
  km_thresholds ← getattr "PostcodeComparison" "km_thresholds" (km_thresholds self);
  let comparison_desc :=
    if nonempty km_thresholds then
      let comma_separated_thresholds_string := comma_separated km_thresholds in
      let plural := plural km_thresholds in
      "km distance within threshold" +:+ plural +:+ " "
      +:+ comma_separated_thresholds_string +:+ " vs. "
    else comparison_desc in
  mret (comparison_desc +:+ "anything else").

End methods.

(** [self.col_expressions["postcode"].output_column_name] *)
Definition create_output_column_name `{ColumnLabels} (self : t) : result string :=
  col ← map_getitem (col_expressions self) "postcode";
  match col with
  | Some col => Ok (output_column_name col)
  | None =>
      Raise (AttributeError
        "'NoneType' object has no attribute 'output_column_name'")
  end.

End PostcodeComparison.

Definition _DEFAULT_EMAIL_REGEX : string :=
  "^[a-zA-Z0-9._%+-]+@[a-zA-Z0-9.-]+[.][a-zA-Z]{2,}$".

Module EmailComparison.

Definition USERNAME_REGEX : string := "^[^@]+".
Definition DOMAIN_REGEX : string := "@([^@]+)$".

Record t := {
  fuzzy_thresholds : list pyval;
  valid_email_regex : option string;
  exact_match : bool;
  username_match : bool;
  username_fuzzy : bool;
  domain_match : bool;
  fuzzy_level : option fuzzy_class;
  fuzzy_metric : option string;
  col_expression : ColumnExpression;
}.

Record args := {
  col_name : col_arg;
  invalid_emails_as_null : bool;
  arg_valid_email_regex : string;
  include_exact_match_level : bool;
  include_username_match_level : bool;
  include_username_fuzzy_level : bool;
  include_domain_match_level : bool;
  arg_fuzzy_metric : string;
  arg_fuzzy_thresholds : pyval;
}.

(** The default threshold 0.88 is the binary64 value
    7926335344172073 * 2^-53. *)
Definition defaults (col_name : col_arg) : args :=
  {| col_name := col_name;
     invalid_emails_as_null := false;
     arg_valid_email_regex := _DEFAULT_EMAIL_REGEX;
     include_exact_match_level := true;
     include_username_match_level := true;
     include_username_fuzzy_level := true;
     include_domain_match_level := false;
     arg_fuzzy_metric := "jaro_winkler";
     arg_fuzzy_thresholds := VList [VFloat 7926335344172073 (-53)] |}.

Section methods.
Context `{PyBuiltins}.

Definition init (a : args) : result t :=
  let fuzzy_thresholds := ensure_is_iterable (arg_fuzzy_thresholds a) in
  fuzzy ←
    (if nonempty fuzzy_thresholds then
       fuzzy_level ← lookup_fuzzy_level (arg_fuzzy_metric a);
       mret (Some fuzzy_level, Some (arg_fuzzy_metric a))
     else mret (None, None));
  mret {| fuzzy_thresholds := fuzzy_thresholds;
          valid_email_regex :=
            if invalid_emails_as_null a
            then Some (arg_valid_email_regex a) else None;
          exact_match := include_exact_match_level a;
          username_match := include_username_match_level a;
          username_fuzzy := include_username_fuzzy_level a;
          domain_match := include_domain_match_level a;
          fuzzy_level := fuzzy.1;
          fuzzy_metric := fuzzy.2;
          col_expression := instantiate_if_str (col_name a) |}.

Definition create_comparison_levels (self : t)
    : result (list ComparisonLevelCreator) :=
  let full_col_expression := col_expression self in
  let username_col_expression := regex_extract full_col_expression USERNAME_REGEX in
  let domain_col_expression := regex_extract full_col_expression DOMAIN_REGEX in
  let levels :=
    [ NullLevel full_col_expression
        (Some (str_or_None (valid_email_regex self))) None ] in
  let levels :=
    if exact_match self
    then levels ++ [ ExactMatchLevel full_col_expression None ] else levels in
  let levels :=
    if username_match self
    then levels ++ [ ExactMatchLevel username_col_expression None ] else levels in
  levels ←
    (if nonempty (fuzzy_thresholds self) then
       fuzzy_level ← getattr "EmailComparison" "fuzzy_level" (fuzzy_level self);
       let levels :=
         levels ++ (fuzzy_call fuzzy_level full_col_expression
                    <$> fuzzy_thresholds self) in
       if username_fuzzy self then
         mret (levels ++ (fuzzy_call fuzzy_level username_col_expression
                          <$> fuzzy_thresholds self))
       else mret levels
     else mret levels);
  let levels :=
    if domain_match self
    then levels ++ [ ExactMatchLevel domain_col_expression None ] else levels in
  mret (levels ++ [ ElseLevel ]).

Definition create_description (self : t) : result string :=
  let comparison_desc := "" in
  let comparison_desc :=
    if exact_match self
    then comparison_desc +:+ "Exact match vs. " else comparison_desc in
  let comparison_desc :=
    if username_match self
    then comparison_desc +:+ "Exact username match different domain vs. "
    else comparison_desc in
  comparison_desc ←
    (if nonempty (fuzzy_thresholds self) then
       let comma_separated_thresholds_string :=
         comma_separated (fuzzy_thresholds self) in
       let plural := plural (fuzzy_thresholds self) in
       fuzzy_metric ← getattr "EmailComparison" "fuzzy_metric" (fuzzy_metric self);
       let comparison_desc :=
         fuzzy_metric +:+ " at threshold" +:+ plural +:+ " "
         +:+ comma_separated_thresholds_string +:+ " vs. " in
       if username_fuzzy self then
         mret (fuzzy_metric +:+ " on username at threshold" +:+ plural +:+ " "
               +:+ comma_separated_thresholds_string +:+ " vs. ")
       else mret comparison_desc
     else mret comparison_desc);
  let comparison_desc :=
    if domain_match self
    then comparison_desc +:+ "Domain-only match vs. " else comparison_desc in
  mret (comparison_desc +:+ "anything else").

End methods.

Definition create_output_column_name `{ColumnLabels} (self : t) : string :=
  output_column_name (col_expression self).

End EmailComparison.

(** ** The comparison creators as one family *)

(** An instance of one of the [ComparisonCreator] subclasses of the two
    libraries. *)
Inductive ComparisonCreator :=
| Custom (self : CustomComparison.t)
| Exact (self : ExactMatch.t)
| Levenshtein (self : LevenshteinAtThresholds.t)
| Datediff (self : DatediffAtThresholds.t)
| Date (self : DateComparison.t)
| Postcode (self : PostcodeComparison.t)
| Email (self : EmailComparison.t).

(** A constructor call of one of them. *)
Inductive constructor_call :=
| NewCustom (output_column_name : string) (comparison_levels : list pyobj)
            (description : option string)
| NewExact (a : ExactMatch.args)
| NewLevenshtein (a : LevenshteinAtThresholds.args)
| NewDatediff (a : DatediffAtThresholds.args)
| NewDate (a : DateComparison.args)
| NewPostcode (a : PostcodeComparison.args)
| NewEmail (a : EmailComparison.args).

Section family.
Context `{PyBuiltins} `{ColumnNames}.

Definition construct (call : constructor_call) : result ComparisonCreator :=
  match call with
  | NewCustom name levels description =>
      mret (Custom (CustomComparison.init name levels description))
  | NewExact a => mret (Exact (ExactMatch.init a))
  | NewLevenshtein a => mret (Levenshtein (LevenshteinAtThresholds.init a))
  | NewDatediff a => mret (Datediff (DatediffAtThresholds.init a))
  | NewDate a => Date <$> DateComparison.init a
  | NewPostcode a => mret (Postcode (PostcodeComparison.init a))
  | NewEmail a => Email <$> EmailComparison.init a
  end.

(** The method every subclass overrides. *)
Definition create_comparison_levels (c : ComparisonCreator)
    : result (list ComparisonLevelCreator) :=
  match c with
  | Custom self => CustomComparison.create_comparison_levels self
  | Exact self => mret (ExactMatch.create_comparison_levels self)
  | Levenshtein self => mret (LevenshteinAtThresholds.create_comparison_levels self)
  | Datediff self => mret (DatediffAtThresholds.create_comparison_levels self)
  | Date self => DateComparison.create_comparison_levels self
  | Postcode self => PostcodeComparison.create_comparison_levels self
  | Email self => EmailComparison.create_comparison_levels self
  end.

End family.

(** The third method every subclass overrides. *)
Definition create_output_column_name `{ColumnLabels} (c : ComparisonCreator)
    : result string :=
  match c with
  | Custom self => mret (CustomComparison.create_output_column_name self)
  | Exact self => mret (ExactMatch.create_output_column_name self)
  | Levenshtein self => mret (LevenshteinAtThresholds.create_output_column_name self)
  | Datediff self => mret (DatediffAtThresholds.create_output_column_name self)
  | Date self => mret (DateComparison.create_output_column_name self)
  | Postcode self => PostcodeComparison.create_output_column_name self
  | Email self => mret (EmailComparison.create_output_column_name self)
  end.

(** The second method every subclass overrides. *)
Definition create_description `{PyBuiltins} `{ColumnLabels} (c : ComparisonCreator)
    : result string :=
  match c with
  | Custom self => mret (CustomComparison.create_description self)
  | Exact self => mret (ExactMatch.create_description self)
  | Levenshtein self => mret (LevenshteinAtThresholds.create_description self)
  | Datediff self => mret (DatediffAtThresholds.create_description self)
  | Date self => DateComparison.create_description self
  | Postcode self => PostcodeComparison.create_description self
  | Email self => EmailComparison.create_description self
  end.

(** The column a constructor call names, or for a CustomComparison the
    output column name itself. *)
Definition named_column (call : constructor_call) : string + col_arg :=
  match call with
  | NewCustom output_column_name _ _ => inl output_column_name
  | NewExact a => inr (ExactMatch.col_name a)
  | NewLevenshtein a => inr (LevenshteinAtThresholds.col_name a)
  | NewDatediff a => inr (DatediffAtThresholds.col_name a)
  | NewDate a => inr (DateComparison.col_name a)
  | NewPostcode a => inr (PostcodeComparison.col_name a)
  | NewEmail a => inr (EmailComparison.col_name a)
  end.

Definition is_custom (c : ComparisonCreator) : bool :=
  match c with Custom _ => true | _ => false end.

(** ** A concrete choice of the builtins

    Used to run the definitions on concrete inputs.  It agrees with Python on
    [None], booleans, integers and on strings of printable ASCII without
    quotes or backslashes; on anything else it prints a placeholder. *)
Module Sample.

Definition type_name (o : pyobj) : string :=
  match o with
  | Data VNone => "NoneType"
  | Data (VBool _) => "bool"
  | Data (VInt _) => "int"
  | Data (VFloat _ _) => "float"
  | Data (VStr _) => "str"
  | Data (VList _) => "list"
  | Data (VDict _) => "dict"
  | LevelCreator _ => "splink.comparison_level_creator.ComparisonLevelCreator"
  | RuleCreator _ => "splink.blocking_rule_creator.BlockingRuleCreator"
  end.

Definition str (o : pyobj) : string :=
  match o with
  | Data VNone => "None"
  | Data (VBool b) => if b then "True" else "False"
  | Data (VInt z) => pretty z
  | Data (VStr s) => s
  | _ => "<" +:+ type_name o +:+ " object>"
  end.

Definition repr (o : pyobj) : string :=
  match o with
  | Data (VStr s) => "'" +:+ s +:+ "'"
  | _ => str o
  end.

Definition is_lower (c : Ascii.ascii) : bool :=
  let n := Ascii.nat_of_ascii c in (97 <=? n)%nat && (n <=? 122)%nat.
Definition is_upper (c : Ascii.ascii) : bool :=
  let n := Ascii.nat_of_ascii c in (65 <=? n)%nat && (n <=? 90)%nat.
Definition to_upper (c : Ascii.ascii) : Ascii.ascii :=
  if is_lower c then Ascii.ascii_of_nat (Ascii.nat_of_ascii c - 32) else c.
Definition to_lower (c : Ascii.ascii) : Ascii.ascii :=
  if is_upper c then Ascii.ascii_of_nat (Ascii.nat_of_ascii c + 32) else c.

(** [s.title()] on ASCII: a letter that follows a letter is lowered, any
    other letter is raised. *)
Fixpoint title_from (after_letter : bool) (s : string) : string :=
  match s with
  | EmptyString => EmptyString
  | String c s' =>
      let letter := is_lower c || is_upper c in
      String (if after_letter then to_lower c else to_upper c)
             (title_from letter s')
  end.

Definition builtins : PyBuiltins :=
  {| py_str := str;
     py_repr := repr;
     py_type_str := λ o, "<class '" +:+ type_name o +:+ "'>";
     str_title := title_from false |}.

(** The left-hand column of a pair is the column name with [_l] appended. *)
Definition names : ColumnNames :=
  {| name_l := λ col, sql_expression col +:+ "_l" |}.

Definition type_names : PyTypeNames := {| py_type_name := type_name |}.

(** The label and the output column name of a column are its name. *)
Definition labels : ColumnLabels :=
  {| label := sql_expression; output_column_name := sql_expression |}.

(** A blocking rule is the SQL text of a [CustomRule] built from a string,
    with the dialect it was compiled for. *)
Definition compiler : RuleCompiler :=
  {| BlockingRule := string * string;
     get_blocking_rule := λ r sql_dialect,
       match r with
       | CustomRule [VStr sql] [] => Ok (sql, sql_dialect)
       | _ => Raise (TypeError "unsupported rule")
       end |}.

End Sample.

(** ** The level lists, flattened

    The methods build their list by successive appends under [if]s.  The
    definitions below spell out the list each one ends up with; the lemmas of
    the next part prove that the methods compute exactly these. *)

Definition optional_level (flag : bool) (c : ComparisonLevelCreator)
    : list ComparisonLevelCreator :=
  if flag then [c] else [].

(** The levels of a fuzzy class on one column; none if no class was stored. *)
Definition fuzzy_levels_on (cls : option fuzzy_class) (col : ColumnExpression)
    (thresholds : list pyval) : list ComparisonLevelCreator :=
  match cls with
  | Some cls => fuzzy_call cls col <$> thresholds
  | None => []
  end.

Definition datediff_levels (col : ColumnExpression)
    (thresholds metrics : list pyval) : list ComparisonLevelCreator :=
  (λ '(threshold, metric), DatediffLevel col threshold metric)
  <$> zip thresholds metrics.

Definition Date_levels `{ColumnNames} (self : DateComparison.t)
    : list ComparisonLevelCreator :=
  let col := DateComparison.col_expression self in
  [ NullLevel col (Some (str_or_None (DateComparison.date_format self)))
      (Some (DateComparison.invalid_dates_as_null self)) ]
  ++ optional_level (DateComparison.separate_1st_january self)
       (DateComparison.first_january_level col)
  ++ optional_level (DateComparison.exact_match self) (ExactMatchLevel col None)
  ++ fuzzy_levels_on (DateComparison.fuzzy_level self) col
       (DateComparison.fuzzy_thresholds self)
  ++ datediff_levels col (DateComparison.date_thresholds self)
       (DateComparison.date_metrics self)
  ++ [ ElseLevel ].

Definition Email_levels (self : EmailComparison.t) : list ComparisonLevelCreator :=
  let full := EmailComparison.col_expression self in
  let username := regex_extract full EmailComparison.USERNAME_REGEX in
  let domain := regex_extract full EmailComparison.DOMAIN_REGEX in
  [ NullLevel full (Some (str_or_None (EmailComparison.valid_email_regex self))) None ]
  ++ optional_level (EmailComparison.exact_match self) (ExactMatchLevel full None)
  ++ optional_level (EmailComparison.username_match self) (ExactMatchLevel username None)
  ++ fuzzy_levels_on (EmailComparison.fuzzy_level self) full
       (EmailComparison.fuzzy_thresholds self)
  ++ (if EmailComparison.username_fuzzy self
      then fuzzy_levels_on (EmailComparison.fuzzy_level self) username
             (EmailComparison.fuzzy_thresholds self)
      else [])
  ++ optional_level (EmailComparison.domain_match self) (ExactMatchLevel domain None)
  ++ [ ElseLevel ].

Definition Postcode_levels (self : PostcodeComparison.t) (full : ColumnExpression)
    (km : list ComparisonLevelCreator) : list ComparisonLevelCreator :=
  [ NullLevel full
      (Some (str_or_None (PostcodeComparison.valid_postcode_regex self))) None ]
  ++ optional_level (PostcodeComparison.full_match self) (ExactMatchLevel full None)
  ++ optional_level (PostcodeComparison.sector_match self)
       (ExactMatchLevel (regex_extract full PostcodeComparison.SECTOR_REGEX) None)
  ++ optional_level (PostcodeComparison.district_match self)
       (ExactMatchLevel (regex_extract full PostcodeComparison.DISTRICT_REGEX) None)
  ++ optional_level (PostcodeComparison.area_match self)
       (ExactMatchLevel (regex_extract full PostcodeComparison.AREA_REGEX) None)
  ++ km ++ [ ElseLevel ].

(** The attributes that [__init__] sets only when there are fuzzy
    thresholds are there whenever the methods read them. *)
Definition Date_attributes_set (self : DateComparison.t) : Prop :=
  DateComparison.fuzzy_thresholds self ≠ [] →
  is_Some (DateComparison.fuzzy_level self)
  ∧ is_Some (DateComparison.fuzzy_metric self).

Definition Email_attributes_set (self : EmailComparison.t) : Prop :=
  EmailComparison.fuzzy_thresholds self ≠ [] →
  is_Some (EmailComparison.fuzzy_level self)
  ∧ is_Some (EmailComparison.fuzzy_metric self).

(** The names [_fuzzy_levels] has an entry for. *)
Definition valid_metrics : list string := _fuzzy_levels.*1.

(** The message of the [ValueError] for an unknown metric name. *)
Definition invalid_metric_message `{PyBuiltins} (metric : string) : string :=
  "Invalid value for fuzzy_metric=" +:+ py_repr (Data (VStr metric))
  +:+ ".  Must choose one of: "
  +:+ "'damerau_levenshtein', 'jaro', 'jaro_winkler', 'levenshtein'" +:+ ".".


(** A DateComparison with other values for the two exact-match flags. *)
Definition Date_with_flags (self : DateComparison.t)
    (exact_match separate_1st_january : bool) : DateComparison.t :=
  {| DateComparison.fuzzy_thresholds := DateComparison.fuzzy_thresholds self;
     DateComparison.date_thresholds := DateComparison.date_thresholds self;
     DateComparison.date_metrics := DateComparison.date_metrics self;
     DateComparison.date_format := DateComparison.date_format self;
     DateComparison.invalid_dates_as_null := DateComparison.invalid_dates_as_null self;
     DateComparison.separate_1st_january := separate_1st_january;
     DateComparison.exact_match := exact_match;
     DateComparison.fuzzy_level := DateComparison.fuzzy_level self;
     DateComparison.fuzzy_metric := DateComparison.fuzzy_metric self;
     DateComparison.col_expression := DateComparison.col_expression self |}.

(** The clause that replaces whatever the description held before it. *)
Definition fuzzy_clause `{PyBuiltins} (metric at_threshold : string) (thresholds : list pyval)
    : string :=
  metric +:+ at_threshold +:+ plural thresholds +:+ " "
  +:+ comma_separated thresholds +:+ " vs. ".

(** A list starts with its only null level and holds a single catch-all. *)
Definition delimited (levels : list ComparisonLevelCreator) : Prop :=
  (∃ x, head levels = Some x ∧ is_null x = true)
  ∧ length (List.filter is_null levels) = 1%nat
  ∧ length (List.filter is_else levels) = 1%nat.



(** * Properties *)

(** ** The error monad *)

Section error_monad.
Context {A B : Type} (f : A → result B).

Lemma mapM_Ok_inv l k :
  mapM f l = Ok k → Forall2 (λ x y, f x = Ok y) l k.
Proof.
  revert k. induction l as [|x l IH]; intros k Hk.
  - injection Hk as <-. constructor.
  - simpl in Hk. destruct (f x) as [y|] eqn:Hx; [|discriminate].
    simpl in Hk. destruct (mapM f l) as [k'|] eqn:Hl; [|discriminate].
    injection Hk as <-. constructor; auto.
Qed.

Lemma mapM_Ok_intro l k :
  Forall2 (λ x y, f x = Ok y) l k → mapM f l = Ok k.
Proof.
  induction 1 as [|x y l k Hx _ IH]; [done|].
  simpl. rewrite Hx. simpl. by rewrite IH.
Qed.


End error_monad.

(** ** Small facts about lists and truth values *)

Lemma nonempty_false {A} (l : list A) : nonempty l = false → l = [].
Proof. by destruct l. Qed.

Lemma nonempty_true {A} (l : list A) : l ≠ [] → nonempty l = true.
Proof. by destruct l. Qed.

Lemma truthy_iterable_nonempty v :
  py_truthy v = true → nonempty (ensure_is_iterable v) = true.
Proof. destruct v as [| | | | |l|d]; try done; by destruct d. Qed.


(** ** What the constructors leave behind *)

Ltac fuzzy_init H :=
  destruct (nonempty _) eqn:?;
  [ destruct (lookup_fuzzy_level _) eqn:?; [|discriminate H] |];
  simpl in H; injection H as <-.

Section constructed.
Context `{PyBuiltins} `{ColumnNames}.

Lemma Date_init_attributes_set a self :
  DateComparison.init a = Ok self → Date_attributes_set self.
Proof.
  intros Hi Hne. unfold DateComparison.init in Hi. fuzzy_init Hi; simpl in *.
  - split; eauto.
  - by apply nonempty_false in Heqb.
Qed.

Lemma Email_init_attributes_set a self :
  EmailComparison.init a = Ok self → Email_attributes_set self.
Proof.
  intros Hi Hne. unfold EmailComparison.init in Hi. fuzzy_init Hi; simpl in *.
  - split; eauto.
  - by apply nonempty_false in Heqb.
Qed.

Lemma Date_create_levels self :
  Date_attributes_set self →
  DateComparison.create_comparison_levels self = Ok (Date_levels self).
Proof.
  unfold Date_attributes_set, DateComparison.create_comparison_levels,
    Date_levels, fuzzy_levels_on, datediff_levels, optional_level.
  destruct self as [ft dt dm df idn sep ex fl fm col]; simpl. intros Hset.
  destruct ft as [|t ft]; simpl.
  - destruct fl, sep, ex, dt; simpl; reflexivity.
  - destruct Hset as [[cls ->] _]; [done|]. simpl.
    destruct sep, ex, dt; simpl; rewrite <- ?app_assoc; reflexivity.
Qed.

Lemma Email_create_levels self :
  Email_attributes_set self →
  EmailComparison.create_comparison_levels self = Ok (Email_levels self).
Proof.
  unfold Email_attributes_set, EmailComparison.create_comparison_levels,
    Email_levels, fuzzy_levels_on, optional_level.
  destruct self as [ft re ex um uf dm fl fm col]; simpl. intros Hset.
  destruct ft as [|t ft]; simpl.
  - destruct fl, ex, um, uf, dm; simpl; reflexivity.
  - destruct Hset as [[cls ->] _]; [done|]. simpl.
    destruct ex, um, uf, dm; simpl; rewrite <- ?app_assoc; reflexivity.
Qed.

Lemma Postcode_init_column a key :
  PostcodeComparison.col_expressions (PostcodeComparison.init a) !! key =
    (λ c : option col_arg, instantiate_if_str <$> c) <$>
    (if py_truthy (PostcodeComparison.arg_km_thresholds a)
     then <["longitude" := PostcodeComparison.long_col a]>
            (<["latitude" := PostcodeComparison.lat_col a]>
               {[ "postcode" := Some (PostcodeComparison.col_name a) ]})
     else ({[ "postcode" := Some (PostcodeComparison.col_name a) ]}
             : gmap string (option col_arg))) !! key.
Proof.
  unfold PostcodeComparison.init, instantiate_columns. simpl.
  by rewrite lookup_fmap.
Qed.

Lemma Postcode_init_postcode a :
  PostcodeComparison.column (PostcodeComparison.init a) "postcode"
  = Ok (instantiate_if_str (PostcodeComparison.col_name a)).
Proof.
  unfold PostcodeComparison.column, map_getitem. rewrite Postcode_init_column.
  destruct (py_truthy _); by simplify_map_eq.
Qed.



End constructed.

(** ** The terminal catch-all level *)

Section catch_all.
Context `{PyBuiltins} `{ColumnNames}.


End catch_all.




(** ** Order of the levels *)



Lemma fuzzy_call_is_fuzzy cls col threshold :
  is_fuzzy (fuzzy_call cls col threshold) = true.
Proof. by destruct cls. Qed.

Lemma fuzzy_levels_on_fuzzy cls col thresholds :
  Forall (λ x, is_fuzzy x = true) (fuzzy_levels_on cls col thresholds).
Proof.
  destruct cls as [cls|]; simpl; [|constructor].
  apply Forall_fmap, Forall_true. intros t. apply fuzzy_call_is_fuzzy.
Qed.

Lemma datediff_levels_datediff col thresholds metrics :
  Forall (λ x, is_datediff x = true) (datediff_levels col thresholds metrics).
Proof. apply Forall_fmap, Forall_true. by intros [t m]. Qed.




Section ordering.
Context `{PyBuiltins} `{ColumnNames}.





End ordering.


(** The exact match on the domain alone is a level on another column
    expression; it is appended after the fuzzy levels. *)
Example Email_domain_level_after_fuzzy :
  let email := {| sql_expression := "email"; operations := [] |} in
  let username := regex_extract email EmailComparison.USERNAME_REGEX in
  let domain := regex_extract email EmailComparison.DOMAIN_REGEX in
  EmailComparison.create_comparison_levels
    {| EmailComparison.fuzzy_thresholds := [VInt 1];
       EmailComparison.valid_email_regex := None;
       EmailComparison.exact_match := true;
       EmailComparison.username_match := true;
       EmailComparison.username_fuzzy := true;
       EmailComparison.domain_match := true;
       EmailComparison.fuzzy_level := Some JaroWinklerCls;
       EmailComparison.fuzzy_metric := Some "jaro_winkler";
       EmailComparison.col_expression := email |}
  = Ok [ NullLevel email (Some VNone) None;
         ExactMatchLevel email None;
         ExactMatchLevel username None;
         JaroWinklerLevel email (VInt 1);
         JaroWinklerLevel username (VInt 1);
         ExactMatchLevel domain None;
         ElseLevel ].
Proof. reflexivity. Qed.

(** ** Normalising a blocking rule *)

(** C3, amended.  A string is normalised to [CustomRule(s)] and a dict with
    string keys to [CustomRule] called with the dict as keyword arguments.
    Every other input, a rule creator or not, is returned as it is: the
    function raises no type error for it. *)
Theorem C3_blocking_rule_normalisation :
  (∀ s, to_blocking_rule_creator (Data (VStr s))
        = Ok (RuleCreator (CustomRule [VStr s] [])))
  ∧ (∀ d kwargs, expand_kwargs d = Ok kwargs →
       to_blocking_rule_creator (Data (VDict d))
       = Ok (RuleCreator (CustomRule [] kwargs)))
  ∧ (∀ x, isinstance_dict x = false → isinstance_str x = false →
       to_blocking_rule_creator x = Ok x).
Proof.
  split; [done|]. split.
  - intros d kwargs Hd. simpl. by rewrite Hd.
  - intros [[]| |] ? ?; done.
Qed.

(** An integer is neither a dict nor a string; it comes back unchanged.  A
    dict with the key [blocking_rule] becomes a [CustomRule]. *)
Lemma C3_blocking_rule_normalisation_witness :
  isinstance_dict (Data (VInt 5)) = false
  ∧ isinstance_str (Data (VInt 5)) = false
  ∧ to_blocking_rule_creator (Data (VInt 5)) = Ok (Data (VInt 5))
  ∧ to_blocking_rule_creator
      (Data (VDict [(VStr "blocking_rule", VStr "l.city = r.city")]))
    = Ok (RuleCreator (CustomRule [] [("blocking_rule", VStr "l.city = r.city")])).
Proof.
  split; [reflexivity|]. split; [reflexivity|]. split.
  - apply (proj2 (proj2 C3_blocking_rule_normalisation)); reflexivity.
  - apply (proj1 (proj2 C3_blocking_rule_normalisation)). reflexivity.
Defined.

(** C3 as stated fails: the integer 5 is not a dict, a string or a rule
    creator, and it is not rejected. *)
Lemma C3_not_rejected_counterexample :
  let x := Data (VInt 5) in
  isinstance_dict x = false
  ∧ isinstance_str x = false
  ∧ isinstance_BlockingRuleCreator x = false
  ∧ to_blocking_rule_creator x = Ok x
  ∧ ¬ (∃ msg, to_blocking_rule_creator x = Raise (TypeError msg)).
Proof. repeat split. intros [msg Hmsg]. discriminate Hmsg. Qed.

(** ** Validation of the fuzzy metric *)

Lemma getitem_fuzzy_levels_invalid metric :
  metric ∉ valid_metrics → getitem _fuzzy_levels metric = Raise (KeyError metric).
Proof.
  unfold valid_metrics, _fuzzy_levels. cbn [getitem fmap list_fmap fst].
  intros Hnot.
  repeat match goal with
         | |- context [String.eqb ?k metric] =>
             destruct (String.eqb_spec k metric) as [<-|_];
             [exfalso; apply Hnot; set_solver|]
         end.
  reflexivity.
Qed.

Lemma getitem_fuzzy_levels_valid metric :
  metric ∈ valid_metrics → ∃ cls, getitem _fuzzy_levels metric = Ok cls.
Proof.
  unfold valid_metrics, _fuzzy_levels. cbn [fmap list_fmap fst]. intros Hin.
  repeat (apply elem_of_cons in Hin as [->|Hin]; [by eexists|]).
  by apply elem_of_nil in Hin.
Qed.

Section metric_validation.
Context `{PyBuiltins}.

Lemma lookup_fuzzy_level_invalid metric :
  metric ∉ valid_metrics →
  lookup_fuzzy_level metric = Raise (ValueError (invalid_metric_message metric)).
Proof.
  intros Hnot. unfold lookup_fuzzy_level.
  by rewrite (getitem_fuzzy_levels_invalid _ Hnot).
Qed.

(** C4, amended.  With a non-empty list of fuzzy thresholds, constructing a
    DateComparison or an EmailComparison with a metric name outside
    damerau_levenshtein, jaro, jaro_winkler, levenshtein raises a
    [ValueError] whose message lists these four names, and no instance
    exists.  With an empty list of fuzzy thresholds the name is never looked
    up and construction succeeds whatever the name. *)
Theorem C4_unknown_metric_rejected metric :
  metric ∉ valid_metrics →
  (∀ a, DateComparison.arg_fuzzy_metric a = metric →
     DateComparison.init a =
       if nonempty (ensure_is_iterable (DateComparison.arg_fuzzy_thresholds a))
       then Raise (ValueError (invalid_metric_message metric))
       else Ok {| DateComparison.fuzzy_thresholds := [];
                  DateComparison.date_thresholds :=
                    ensure_is_iterable (DateComparison.datediff_thresholds a);
                  DateComparison.date_metrics :=
                    ensure_is_iterable (DateComparison.datediff_metrics a);
                  DateComparison.date_format := DateComparison.arg_date_format a;
                  DateComparison.invalid_dates_as_null :=
                    DateComparison.arg_invalid_dates_as_null a;
                  DateComparison.separate_1st_january :=
                    DateComparison.arg_separate_1st_january a;
                  DateComparison.exact_match :=
                    DateComparison.include_exact_match_level a;
                  DateComparison.fuzzy_level := None;
                  DateComparison.fuzzy_metric := None;
                  DateComparison.col_expression :=
                    instantiate_if_str (DateComparison.col_name a) |})
  ∧ (∀ a, EmailComparison.arg_fuzzy_metric a = metric →
       if nonempty (ensure_is_iterable (EmailComparison.arg_fuzzy_thresholds a))
       then EmailComparison.init a = Raise (ValueError (invalid_metric_message metric))
       else is_Ok (EmailComparison.init a) = true).
Proof.
  intros Hnot. split; intros a <-.
  - unfold DateComparison.init.
    destruct (nonempty _) eqn:Hne.
    + by rewrite (lookup_fuzzy_level_invalid _ Hnot).
    + apply nonempty_false in Hne. by rewrite Hne.
  - unfold EmailComparison.init.
    destruct (nonempty _) eqn:Hne.
    + by rewrite (lookup_fuzzy_level_invalid _ Hnot).
    + reflexivity.
Qed.

End metric_validation.


(** Construction with the unknown name [soundex] and one fuzzy threshold. *)
Lemma C4_unknown_metric_rejected_witness :
  let a :=
    {| DateComparison.col_name := ColName "dob";
       DateComparison.arg_date_format := None;
       DateComparison.arg_invalid_dates_as_null := false;
       DateComparison.include_exact_match_level := true;
       DateComparison.arg_separate_1st_january := false;
       DateComparison.arg_fuzzy_metric := "soundex";
       DateComparison.arg_fuzzy_thresholds := VList [VInt 1];
       DateComparison.datediff_thresholds := VList [VInt 1];
       DateComparison.datediff_metrics := VList [VStr "year"] |} in
  ("soundex" ∉ valid_metrics)
  ∧ @DateComparison.init Sample.builtins a
    = Raise (ValueError
        ("Invalid value for fuzzy_metric='soundex'.  Must choose one of: "
         +:+ "'damerau_levenshtein', 'jaro', 'jaro_winkler', 'levenshtein'.")).
Proof.
  intros a.
  assert (Hnot : "soundex" ∉ valid_metrics)
    by compute_done.
  split; [exact Hnot|].
  exact (proj1 (@C4_unknown_metric_rejected Sample.builtins "soundex" Hnot)
           a eq_refl).
Defined.

(** C4 as stated fails: with an empty list of fuzzy thresholds the unknown
    name [soundex] is accepted and an instance is built. *)
Lemma C4_empty_thresholds_counterexample :
  let a :=
    {| DateComparison.col_name := ColName "dob";
       DateComparison.arg_date_format := None;
       DateComparison.arg_invalid_dates_as_null := false;
       DateComparison.include_exact_match_level := true;
       DateComparison.arg_separate_1st_january := false;
       DateComparison.arg_fuzzy_metric := "soundex";
       DateComparison.arg_fuzzy_thresholds := VList [];
       DateComparison.datediff_thresholds := VList [VInt 1];
       DateComparison.datediff_metrics := VList [VStr "year"] |} in
  ("soundex" ∉ valid_metrics)
  ∧ @DateComparison.init Sample.builtins a
    = Ok {| DateComparison.fuzzy_thresholds := [];
            DateComparison.date_thresholds := [VInt 1];
            DateComparison.date_metrics := [VStr "year"];
            DateComparison.date_format := None;
            DateComparison.invalid_dates_as_null := false;
            DateComparison.separate_1st_january := false;
            DateComparison.exact_match := true;
            DateComparison.fuzzy_level := None;
            DateComparison.fuzzy_metric := None;
            DateComparison.col_expression :=
              {| sql_expression := "dob"; operations := [] |} |}
  ∧ ¬ (∃ e, @DateComparison.init Sample.builtins a = Raise e).
Proof.
  intros a. split; [compute_done|].
  split; [reflexivity|]. intros [e He]. discriminate He.
Qed.

(** ** Date-difference levels and lists of unequal length *)

Lemma filter_none {A} (f : A → bool) l :
  Forall (λ x, f x = false) l → List.filter f l = [].
Proof.
  induction 1 as [|x l Hx _ IH]; [done|]. simpl. by rewrite Hx.
Qed.








Section unequal_lengths.
Context `{PyBuiltins} `{ColumnNames}.

Lemma Date_init_fields a self :
  DateComparison.init a = Ok self →
  DateComparison.fuzzy_thresholds self
    = ensure_is_iterable (DateComparison.arg_fuzzy_thresholds a)
  ∧ DateComparison.date_thresholds self
    = ensure_is_iterable (DateComparison.datediff_thresholds a)
  ∧ DateComparison.date_metrics self
    = ensure_is_iterable (DateComparison.datediff_metrics a)
  ∧ DateComparison.date_format self = DateComparison.arg_date_format a
  ∧ DateComparison.invalid_dates_as_null self
    = DateComparison.arg_invalid_dates_as_null a
  ∧ DateComparison.separate_1st_january self
    = DateComparison.arg_separate_1st_january a
  ∧ DateComparison.exact_match self = DateComparison.include_exact_match_level a
  ∧ DateComparison.col_expression self
    = instantiate_if_str (DateComparison.col_name a)
  ∧ (DateComparison.fuzzy_thresholds self ≠ [] →
     DateComparison.fuzzy_metric self = Some (DateComparison.arg_fuzzy_metric a)
     ∧ ∃ cls, DateComparison.fuzzy_level self = Some cls
              ∧ getitem _fuzzy_levels (DateComparison.arg_fuzzy_metric a) = Ok cls).
Proof.
  intros Hi. unfold DateComparison.init in Hi.
  destruct (nonempty _) eqn:Hne.
  - destruct (lookup_fuzzy_level _) as [cls|] eqn:Hl; [|discriminate Hi].
    simpl in Hi. injection Hi as <-.
    do 8 (split; [reflexivity|]). intros _. split; [reflexivity|].
    exists cls. split; [reflexivity|]. unfold lookup_fuzzy_level in Hl.
    destruct (getitem _ _) as [cls'|[]]; congruence.
  - simpl in Hi. injection Hi as <-.
    do 8 (split; [reflexivity|]). intros Hft. exfalso. apply Hft.
    by apply nonempty_false in Hne.
Qed.


End unequal_lengths.



(** ** The separate level for the 1st of January *)

Section first_january.
Context `{PyBuiltins} `{ColumnNames}.


End first_january.


(** ** Entries of a CustomComparison *)

Section custom_entries.
Context `{PyBuiltins}.


End custom_entries.


(** ** Invalid values as null *)

Section invalid_as_null.
Context `{PyBuiltins}.

Lemma Email_init_fields a self :
  EmailComparison.init a = Ok self →
  EmailComparison.fuzzy_thresholds self
    = ensure_is_iterable (EmailComparison.arg_fuzzy_thresholds a)
  ∧ EmailComparison.valid_email_regex self
    = (if EmailComparison.invalid_emails_as_null a
       then Some (EmailComparison.arg_valid_email_regex a) else None)
  ∧ EmailComparison.exact_match self = EmailComparison.include_exact_match_level a
  ∧ EmailComparison.username_match self
    = EmailComparison.include_username_match_level a
  ∧ EmailComparison.username_fuzzy self
    = EmailComparison.include_username_fuzzy_level a
  ∧ EmailComparison.domain_match self = EmailComparison.include_domain_match_level a
  ∧ EmailComparison.col_expression self
    = instantiate_if_str (EmailComparison.col_name a)
  ∧ (EmailComparison.fuzzy_thresholds self ≠ [] →
     EmailComparison.fuzzy_metric self = Some (EmailComparison.arg_fuzzy_metric a)).
Proof.
  intros Hi. unfold EmailComparison.init in Hi.
  destruct (nonempty _) eqn:Hne.
  - destruct (lookup_fuzzy_level _) as [cls|] eqn:Hl; [|discriminate Hi].
    simpl in Hi. injection Hi as <-. do 7 (split; [reflexivity|]). done.
  - simpl in Hi. injection Hi as <-. do 7 (split; [reflexivity|]).
    intros Hft. exfalso. apply Hft. by apply nonempty_false in Hne.
Qed.


End invalid_as_null.


(** ** A PostcodeComparison without distance thresholds *)

Section without_km.
Context `{PyBuiltins}.

(** C9.  The default [km_thresholds] is falsy, and a PostcodeComparison
    built with a falsy [km_thresholds] has no attribute [km_thresholds]:
    [create_comparison_levels] and [create_description] both raise
    [AttributeError] on it. *)
Theorem C9_postcode_without_km_thresholds :
  (∀ col, py_truthy (PostcodeComparison.arg_km_thresholds
                       (PostcodeComparison.defaults col)) = false)
  ∧ ∀ a, py_truthy (PostcodeComparison.arg_km_thresholds a) = false →
      let self := PostcodeComparison.init a in
      let error :=
        AttributeError "'PostcodeComparison' object has no attribute 'km_thresholds'" in
      PostcodeComparison.km_thresholds self = None
      ∧ PostcodeComparison.create_comparison_levels self = Raise error
      ∧ PostcodeComparison.create_description self = Raise error.
Proof.
  split; [done|]. intros a Hkm self error. subst self. split; [|split].
  - unfold PostcodeComparison.init. simpl. by rewrite Hkm.
  - unfold PostcodeComparison.create_comparison_levels.
    rewrite Postcode_init_postcode. unfold PostcodeComparison.init. simpl.
    by rewrite Hkm.
  - unfold PostcodeComparison.create_description, PostcodeComparison.init. simpl.
    by rewrite Hkm.
Qed.

End without_km.

(** The default PostcodeComparison. *)
Lemma C9_postcode_without_km_thresholds_witness :
  let a := PostcodeComparison.defaults (ColName "postcode") in
  let error :=
    AttributeError "'PostcodeComparison' object has no attribute 'km_thresholds'" in
  py_truthy (PostcodeComparison.arg_km_thresholds a) = false
  ∧ PostcodeComparison.km_thresholds (PostcodeComparison.init a) = None
  ∧ PostcodeComparison.create_comparison_levels (PostcodeComparison.init a)
    = Raise error
  ∧ @PostcodeComparison.create_description Sample.builtins (PostcodeComparison.init a)
    = Raise error.
Proof.
  intros a error. split; [reflexivity|].
  exact (proj2 (@C9_postcode_without_km_thresholds Sample.builtins) a eq_refl).
Defined.

(** ** Descriptions *)

Lemma string_app_assoc (s1 s2 s3 : string) :
  (s1 +:+ s2) +:+ s3 = s1 +:+ (s2 +:+ s3).
Proof.
  induction s1 as [|c s1 IH]; [done|].
  change (String c ((s1 +:+ s2) +:+ s3) = String c (s1 +:+ (s2 +:+ s3))).
  by rewrite IH.
Qed.

Lemma mapM_all_Ok {A B} (f : A → result B) l :
  Forall (λ x, is_Ok (f x) = true) l → is_Ok (mapM f l) = true.
Proof.
  induction 1 as [|x l Hx _ IH]; [done|]. simpl.
  destruct (f x); [|discriminate Hx]. simpl.
  by destruct (mapM f l).
Qed.

Lemma zip_string_metrics (thresholds metrics : list pyval) :
  Forall (λ m, ∃ s, m = VStr s) metrics →
  Forall (λ vm : pyval * pyval, ∃ s, vm.2 = VStr s) (zip thresholds metrics).
Proof.
  intros Hm. revert thresholds.
  induction Hm as [|m metrics Hs _ IH]; intros [|t thresholds]; simpl;
    constructor; auto.
Qed.

Section descriptions.
Context `{PyBuiltins}.

Lemma Date_description_fuzzy self metric :
  DateComparison.fuzzy_thresholds self ≠ [] →
  DateComparison.fuzzy_metric self = Some metric →
  DateComparison.create_description self =
    let clause :=
      fuzzy_clause metric " at threshold" (DateComparison.fuzzy_thresholds self) in
    if nonempty (DateComparison.date_thresholds self) then
      items ← mapM DateComparison.datediff_item
                (zip (DateComparison.date_thresholds self)
                     (DateComparison.date_metrics self));
      mret ((clause +:+ "dates within the following threshold"
             +:+ plural (DateComparison.date_thresholds self) +:+ " "
             +:+ String.concat ", " items +:+ " vs. ") +:+ "anything else")
    else Ok (clause +:+ "anything else").
Proof.
  intros Hne Hmetric. unfold DateComparison.create_description.
  rewrite (nonempty_true _ Hne), Hmetric. cbv zeta.
  destruct (nonempty (DateComparison.date_thresholds self)); [|reflexivity].
  by destruct (mapM _ _).
Qed.

(** C10.  With fuzzy thresholds (for PostcodeComparison: with
    [km_thresholds]) the description is rebuilt from the fuzzy or km clause:
    what the exact-match flags had put into it is lost.  For DateComparison
    the description does not depend on the two exact-match flags and starts
    with the fuzzy clause, and it is returned whenever the date metrics are
    strings; for EmailComparison and PostcodeComparison it is the clause,
    for EmailComparison the domain-only segment if that level is on, and
    "anything else". *)
Theorem C10_description_restarts_at_fuzzy_clause :
  (∀ a self,
     DateComparison.init a = Ok self →
     let thresholds := ensure_is_iterable (DateComparison.arg_fuzzy_thresholds a) in
     thresholds ≠ [] →
     let clause :=
       fuzzy_clause (DateComparison.arg_fuzzy_metric a) " at threshold" thresholds in
     (∀ exact_match separate_1st_january,
        DateComparison.create_description
          (Date_with_flags self exact_match separate_1st_january)
        = DateComparison.create_description self)
     ∧ (∀ description,
          DateComparison.create_description self = Ok description →
          ∃ rest, description = clause +:+ rest)
     ∧ (Forall (λ m, ∃ s, m = VStr s) (DateComparison.date_metrics self) →
        is_Ok (DateComparison.create_description self) = true))
  ∧ (∀ a self,
       EmailComparison.init a = Ok self →
       let thresholds := ensure_is_iterable (EmailComparison.arg_fuzzy_thresholds a) in
       thresholds ≠ [] →
       let clause :=
         fuzzy_clause (EmailComparison.arg_fuzzy_metric a)
           (if EmailComparison.include_username_fuzzy_level a
            then " on username at threshold" else " at threshold")
           thresholds in
       EmailComparison.create_description self
       = Ok ((if EmailComparison.include_domain_match_level a
              then clause +:+ "Domain-only match vs. " else clause)
             +:+ "anything else"))
  ∧ (∀ a,
       py_truthy (PostcodeComparison.arg_km_thresholds a) = true →
       let km_thresholds :=
         ensure_is_iterable (PostcodeComparison.arg_km_thresholds a) in
       PostcodeComparison.create_description (PostcodeComparison.init a)
       = Ok (("km distance within threshold" +:+ plural km_thresholds +:+ " "
              +:+ comma_separated km_thresholds +:+ " vs. ")
             +:+ "anything else")).
Proof.
  split; [|split].
  - intros a self Hi thresholds Hne clause.
    destruct (Date_init_fields _ _ Hi)
      as (Hft & _ & _ & _ & _ & _ & _ & _ & Hfuzzy).
    assert (Hne' : DateComparison.fuzzy_thresholds self ≠ [])
      by (rewrite Hft; exact Hne).
    destruct (Hfuzzy Hne') as [Hmetric _].
    assert (Hdescr := Date_description_fuzzy self _ Hne' Hmetric).
    rewrite Hft in Hdescr. fold thresholds in Hdescr. fold clause in Hdescr.
    cbv zeta in Hdescr. split; [|split].
    + intros exact_match separate_1st_january. rewrite Hdescr.
      rewrite (Date_description_fuzzy _ (DateComparison.arg_fuzzy_metric a));
        [|exact Hne'|exact Hmetric].
      simpl. by rewrite Hft.
    + intros description. rewrite Hdescr.
      destruct (nonempty (DateComparison.date_thresholds self)).
      * destruct (mapM _ _) as [items|]; [|discriminate]. simpl.
        intros [= <-]. eexists. by rewrite !string_app_assoc.
      * intros [= <-]. by eexists.
    + intros Hstrings. rewrite Hdescr.
      destruct (nonempty (DateComparison.date_thresholds self)); [|done].
      assert (Hitems : is_Ok (mapM DateComparison.datediff_item
                                (zip (DateComparison.date_thresholds self)
                                     (DateComparison.date_metrics self))) = true).
      { apply mapM_all_Ok.
        eapply Forall_impl; [by apply zip_string_metrics|].
        intros [v m] [s Hs]. simpl in Hs. subst m. reflexivity. }
      by destruct (mapM _ _).
  - intros a self Hi thresholds Hne clause. subst clause thresholds.
    cbv beta in Hne.
    destruct (Email_init_fields _ _ Hi) as (Hft & _ & _ & _ & Huf & Hdm & _ & Hfuzzy).
    rewrite <- Hft in Hne. specialize (Hfuzzy Hne).
    unfold EmailComparison.create_description.
    rewrite (nonempty_true _ Hne), Hfuzzy, Huf, Hdm, Hft. simpl.
    by destruct (EmailComparison.include_username_fuzzy_level a),
      (EmailComparison.include_domain_match_level a).
  - intros a Hkm km_thresholds. subst km_thresholds.
    unfold PostcodeComparison.create_description, PostcodeComparison.init. simpl.
    rewrite Hkm. simpl. by rewrite (truthy_iterable_nonempty _ Hkm).
Qed.

End descriptions.

(** The default DateComparison has the exact-match level in its list, and
    its description starts with the fuzzy clause. *)
Lemma C10_description_restarts_at_fuzzy_clause_witness :
  let dob := {| sql_expression := "dob"; operations := [] |} in
  let a := DateComparison.defaults (ColName "dob") in
  let self :=
    {| DateComparison.fuzzy_thresholds := [VInt 1];
       DateComparison.date_thresholds := [VInt 1; VInt 1; VInt 10];
       DateComparison.date_metrics := [VStr "month"; VStr "year"; VStr "year"];
       DateComparison.date_format := None;
       DateComparison.invalid_dates_as_null := false;
       DateComparison.separate_1st_january := false;
       DateComparison.exact_match := true;
       DateComparison.fuzzy_level := Some DamerauLevenshteinCls;
       DateComparison.fuzzy_metric := Some "damerau_levenshtein";
       DateComparison.col_expression := dob |} in
  let description :=
    "damerau_levenshtein at threshold 1 vs. "
    +:+ "dates within the following thresholds Month(s): 1, Year(s): 1, Year(s): 10 vs. "
    +:+ "anything else" in
  @DateComparison.init Sample.builtins a = Ok self
  ∧ ensure_is_iterable (DateComparison.arg_fuzzy_thresholds a) ≠ []
  ∧ @DateComparison.create_description Sample.builtins self = Ok description
  ∧ ∃ rest, description = "damerau_levenshtein at threshold 1 vs. " +:+ rest.
Proof.
  intros dob a self description.
  assert (Hne : ensure_is_iterable (DateComparison.arg_fuzzy_thresholds a) ≠ [])
    by discriminate.
  split; [reflexivity|]. split; [exact Hne|]. split; [reflexivity|].
  exact (proj1 (proj2 (proj1 (@C10_description_restarts_at_fuzzy_clause Sample.builtins)
                         a self eq_refl Hne)) description eq_refl).
Defined.

(** * Further properties *)

(** ** More on the error monad *)

Section error_monad_more.
Context {A B : Type} (f : A → result B).

Lemma mapM_app_Ok l1 l2 k1 :
  mapM f l1 = Ok k1 → mapM f (l1 ++ l2) = (k2 ← mapM f l2; mret (k1 ++ k2)).
Proof.
  revert k1. induction l1 as [|x l1 IH]; intros k1 Hk1.
  - injection Hk1 as <-. simpl. by destruct (mapM f l2).
  - simpl in Hk1. destruct (f x) as [y|] eqn:Hx; [|discriminate].
    simpl in Hk1. destruct (mapM f l1) as [k|] eqn:Hl1; [|discriminate].
    injection Hk1 as <-. simpl. rewrite Hx. simpl. rewrite (IH k eq_refl).
    by destruct (mapM f l2).
Qed.

Lemma mapM_fmap_Ok {C} (g : C → A) (h : C → B) l :
  (∀ x, f (g x) = Ok (h x)) → mapM f (g <$> l) = Ok (h <$> l).
Proof.
  intros Hfg. induction l as [|x l IH]; [done|].
  rewrite fmap_cons.
  change (mapM f (g x :: (g <$> l)))
    with (y ← f (g x); k ← mapM f (g <$> l); mret (y :: k)).
  rewrite Hfg, IH. reflexivity.
Qed.
End error_monad_more.

(** ** Keyword expansion *)

Lemma expand_kwargs_cases d :
  (∃ kwargs, expand_kwargs d = Ok kwargs)
  ∨ expand_kwargs d = Raise (TypeError "keywords must be strings").
Proof.
  unfold expand_kwargs. induction d as [|[k v] d IH]; [by left; eexists|].
  change (mapM keyword ((k, v) :: d))
    with (kv ← keyword (k, v); kw ← mapM keyword d; mret (kv :: kw)).
  destruct k; try by right.
  simpl. destruct IH as [[kw Hkw]| ->]; [left|by right].
  rewrite Hkw. by eexists.
Qed.

(** ** Blocking rules from arguments *)

(** X2.  Normalising is idempotent: what [to_blocking_rule_creator]
    returns, it returns unchanged when given it again. *)
Theorem X2_to_blocking_rule_creator_idempotent x y :
  to_blocking_rule_creator x = Ok y → to_blocking_rule_creator y = Ok y.
Proof.
  destruct x as [[|b|z|m ex|s|l|d]|c|r]; simpl; try by intros [= <-].
  destruct (expand_kwargs d); simpl; [|discriminate]. by intros [= <-].
Qed.

(** A dict of rule parameters becomes a [CustomRule], and that one is left
    alone. *)
Lemma X2_to_blocking_rule_creator_idempotent_witness :
  let d := Data (VDict [(VStr "blocking_rule", VStr "l.city = r.city")]) in
  let rule := RuleCreator (CustomRule [] [("blocking_rule", VStr "l.city = r.city")]) in
  to_blocking_rule_creator d = Ok rule
  ∧ to_blocking_rule_creator rule = Ok rule.
Proof.
  intros d rule. split; [reflexivity|].
  exact (X2_to_blocking_rule_creator_idempotent d rule eq_refl).
Defined.

Section blocking_rules.
Context `{PyTypeNames} `{RuleCompiler}.

(** X3.  When [blocking_rule_args_to_list_of_blocking_rules] returns, it
    returns one blocking rule per argument, in the order of the arguments,
    and each is what [get_blocking_rule] gave for the creator the argument
    was normalised to. *)
Theorem X3_one_blocking_rule_per_argument args sql_dialect rules :
  blocking_rule_args_to_list_of_blocking_rules args sql_dialect = Ok rules →
  Forall2
    (λ arg rule,
       ∃ r, to_blocking_rule_creator arg = Ok (RuleCreator r)
            ∧ get_blocking_rule r sql_dialect = Ok rule)
    (ensure_is_iterable_args args) rules.
Proof.
  unfold blocking_rule_args_to_list_of_blocking_rules.
  generalize (ensure_is_iterable_args args). intros l Hrules.
  destruct (mapM to_blocking_rule_creator l) as [creators|] eqn:Hcreators;
    [|discriminate].
  simpl in Hrules.
  destruct (mapM (call_get_blocking_rule sql_dialect) creators) as [brs|] eqn:Hbrs;
    [|discriminate].
  injection Hrules as <-.
  apply mapM_Ok_inv in Hcreators. apply mapM_Ok_inv in Hbrs.
  revert brs Hbrs.
  induction Hcreators as [|arg creator l creators Harg _ IH]; intros brs Hbrs.
  - inversion Hbrs. constructor.
  - inversion Hbrs as [|? rule ? brs' Hrule Hbrs']; subst.
    constructor; [|by apply IH].
    destruct creator as [v|c|r]; try discriminate Hrule. by exists r.
Qed.

(** X4.  The arguments are all normalised before any rule is compiled:
    when the arguments before it normalise, a dict with a key that is not a
    string makes the call raise the [TypeError] of keyword expansion,
    whatever follows it and even if one of the arguments before it has no
    [get_blocking_rule]. *)
Theorem X4_bad_dict_raises_first pre d post sql_dialect creators :
  mapM to_blocking_rule_creator pre = Ok creators →
  is_Ok (expand_kwargs d) = false →
  blocking_rule_args_to_list_of_blocking_rules
    (ListArg (pre ++ Data (VDict d) :: post)) sql_dialect
  = Raise (TypeError "keywords must be strings").
Proof.
  intros Hpre Hd. unfold blocking_rule_args_to_list_of_blocking_rules. simpl.
  rewrite (mapM_app_Ok _ _ _ _ Hpre).
  change (mapM to_blocking_rule_creator (Data (VDict d) :: post))
    with (y ← to_blocking_rule_creator (Data (VDict d));
          k ← mapM to_blocking_rule_creator post; mret (y :: k)).
  simpl. destruct (expand_kwargs_cases d) as [[kw Hkw]| ->]; [|reflexivity].
  rewrite Hkw in Hd. discriminate Hd.
Qed.

(** X5.  Plain data that is neither a dict nor a string passes
    normalisation and is rejected when its rule is asked for: if the
    arguments before it compile and the ones after it normalise, the call
    raises the [AttributeError] of the missing method. *)
Theorem X5_non_creator_raises_attribute_error pre v post sql_dialect creators :
  isinstance_dict (Data v) = false →
  isinstance_str (Data v) = false →
  mapM to_blocking_rule_creator pre = Ok creators →
  is_Ok (mapM (call_get_blocking_rule sql_dialect) creators) = true →
  is_Ok (mapM to_blocking_rule_creator post) = true →
  blocking_rule_args_to_list_of_blocking_rules
    (ListArg (pre ++ Data v :: post)) sql_dialect
  = Raise (AttributeError
      ("'" +:+ py_type_name (Data v)
       +:+ "' object has no attribute 'get_blocking_rule'")).
Proof.
  intros Hdict Hstr Hpre Hbrs Hpost.
  unfold blocking_rule_args_to_list_of_blocking_rules. simpl.
  rewrite (mapM_app_Ok _ _ _ _ Hpre).
  change (mapM to_blocking_rule_creator (Data v :: post))
    with (y ← to_blocking_rule_creator (Data v);
          k ← mapM to_blocking_rule_creator post; mret (y :: k)).
  assert (Hv : to_blocking_rule_creator (Data v) = Ok (Data v))
    by (by destruct v).
  rewrite Hv. simpl.
  destruct (mapM to_blocking_rule_creator post) as [creators'|]; [|discriminate].
  simpl.
  destruct (mapM (call_get_blocking_rule sql_dialect) creators) as [brs|] eqn:Hc;
    [|discriminate].
  rewrite (mapM_app_Ok _ _ _ _ Hc).
  change (mapM (call_get_blocking_rule sql_dialect) (Data v :: creators'))
    with (y ← call_get_blocking_rule sql_dialect (Data v);
          k ← mapM (call_get_blocking_rule sql_dialect) creators'; mret (y :: k)).
  reflexivity.
Qed.

End blocking_rules.

(** A string, the integer 5 and a bad dict: the dict decides, though the
    integer before it has no [get_blocking_rule]. *)
Lemma X4_bad_dict_raises_first_witness :
  let d := [(VInt 1, VStr "l.city = r.city")] in
  let pre := [Data (VStr "l.name = r.name"); Data (VInt 5)] in
  mapM to_blocking_rule_creator pre
    = Ok [RuleCreator (CustomRule [VStr "l.name = r.name"] []); Data (VInt 5)]
  ∧ is_Ok (expand_kwargs d) = false
  ∧ @blocking_rule_args_to_list_of_blocking_rules Sample.type_names Sample.compiler
      (ListArg (pre ++ [Data (VDict d)])) "duckdb"
    = Raise (TypeError "keywords must be strings").
Proof.
  intros d pre. split; [reflexivity|]. split; [reflexivity|].
  exact (@X4_bad_dict_raises_first Sample.type_names Sample.compiler
           pre d [] "duckdb" _ eq_refl eq_refl).
Defined.

(** A string, then the integer 5. *)
Lemma X5_non_creator_raises_attribute_error_witness :
  let pre := [Data (VStr "l.name = r.name")] in
  mapM to_blocking_rule_creator pre
    = Ok [RuleCreator (CustomRule [VStr "l.name = r.name"] [])]
  ∧ @blocking_rule_args_to_list_of_blocking_rules Sample.type_names Sample.compiler
      (ListArg (pre ++ [Data (VInt 5)])) "duckdb"
    = Raise (AttributeError "'int' object has no attribute 'get_blocking_rule'").
Proof.
  intros pre. split; [reflexivity|].
  exact (@X5_non_creator_raises_attribute_error Sample.type_names Sample.compiler
           pre (VInt 5) [] "duckdb" _ eq_refl eq_refl eq_refl eq_refl eq_refl).
Defined.

(** The rules of two strings, for the dialect asked for. *)
Lemma X3_one_blocking_rule_per_argument_witness :
  let args := ListArg [Data (VStr "l.name = r.name"); Data (VStr "l.city = r.city")] in
  let rules := [("l.name = r.name", "duckdb"); ("l.city = r.city", "duckdb")] in
  @blocking_rule_args_to_list_of_blocking_rules Sample.type_names Sample.compiler
    args "duckdb" = Ok rules
  ∧ Forall2
      (λ arg rule,
         ∃ r, to_blocking_rule_creator arg = Ok (RuleCreator r)
              ∧ @get_blocking_rule Sample.compiler r "duckdb" = Ok rule)
      (ensure_is_iterable_args args) rules.
Proof.
  intros args rules. split; [reflexivity|].
  exact (@X3_one_blocking_rule_per_argument Sample.type_names Sample.compiler
           args "duckdb" rules eq_refl).
Defined.

(** ** Entries that are already level creators *)

(** X6.  A CustomComparison whose entries are all level creators returns
    exactly these creators, in their order; so the list a CustomComparison
    returned can be given to another one and comes back unchanged. *)
Theorem X6_custom_creators_unchanged `{PyBuiltins} name levels description :
  CustomComparison.create_comparison_levels
    (CustomComparison.init name (LevelCreator <$> levels) description)
  = Ok levels.
Proof.
  unfold CustomComparison.create_comparison_levels. simpl.
  rewrite (mapM_fmap_Ok _ LevelCreator id); [by rewrite list_fmap_id | done].
Qed.

(** ** Which levels a list holds *)

Lemma filter_optional_none (kind : ComparisonLevelCreator → bool) flag c :
  kind c = false → List.filter kind (optional_level flag c) = [].
Proof. intros Hc. destruct flag; simpl; by rewrite ?Hc. Qed.





Section threshold_order.
Context `{PyBuiltins} `{ColumnNames}.




End threshold_order.



(** ** Distance levels and columns of a PostcodeComparison *)

Lemma filter_other_kind (kind kind' : ComparisonLevelCreator → bool) l :
  (∀ x, kind' x = true → kind x = false) →
  Forall (λ x, kind' x = true) l → List.filter kind l = [].
Proof.
  intros Hkinds Hl. apply filter_none.
  eapply Forall_impl; [exact Hl|]. exact Hkinds.
Qed.

Section postcode_columns.
Context `{PyBuiltins}.


(** X11.  The latitude and longitude columns are kept only together with
    distance thresholds: built with falsy [km_thresholds] a
    PostcodeComparison has the single column [postcode], whatever
    [lat_col] and [long_col] were; built with truthy ones it has the three
    columns. *)
Theorem X11_postcode_columns a :
  dom (PostcodeComparison.col_expressions (PostcodeComparison.init a))
  = if py_truthy (PostcodeComparison.arg_km_thresholds a)
    then ({[ "postcode"; "latitude"; "longitude" ]} : gset string)
    else {[ "postcode" ]}.
Proof.
  unfold PostcodeComparison.init, instantiate_columns. simpl.
  rewrite dom_fmap_L.
  destruct (py_truthy _).
  - rewrite !dom_insert_L, dom_singleton_L. set_solver.
  - by rewrite dom_singleton_L.
Qed.

End postcode_columns.


(** ** Output column names *)

(** X12.  Every comparison a constructor call yields has an output column
    name: the name given for a CustomComparison, the output column name of
    the column for the others.  A PostcodeComparison without
    [km_thresholds] has one too, though its two other methods raise. *)
Theorem X12_output_column_name `{PyBuiltins} `{ColumnLabels} call c :
  construct call = Ok c →
  create_output_column_name c
  = Ok (match named_column call with
        | inl name => name
        | inr col => output_column_name (instantiate_if_str col)
        end).
Proof.
  destruct call as [name cls descr|a|a|a|a|a|a]; simpl; intros Hc;
    try (by injection Hc as <-).
  - destruct (DateComparison.init a) as [self|] eqn:Hi; [|discriminate].
    injection Hc as <-. simpl. unfold DateComparison.create_output_column_name.
    by destruct (Date_init_fields _ _ Hi) as (_ & _ & _ & _ & _ & _ & _ & -> & _).
  - injection Hc as <-. simpl.
    unfold PostcodeComparison.create_output_column_name, map_getitem.
    rewrite Postcode_init_column.
    destruct (py_truthy _); by simplify_map_eq.
  - destruct (EmailComparison.init a) as [self|] eqn:Hi; [|discriminate].
    injection Hc as <-. simpl. unfold EmailComparison.create_output_column_name.
    by destruct (Email_init_fields _ _ Hi) as (_ & _ & _ & _ & _ & _ & -> & _).
Qed.

(** The default PostcodeComparison. *)
Lemma X12_output_column_name_witness :
  let call := NewPostcode (PostcodeComparison.defaults (ColName "postcode")) in
  let c := Postcode (PostcodeComparison.init
                       (PostcodeComparison.defaults (ColName "postcode"))) in
  @construct Sample.builtins call = Ok c
  ∧ @create_output_column_name Sample.labels c = Ok "postcode"
  ∧ is_Ok (@create_comparison_levels Sample.builtins Sample.names c) = false.
Proof.
  intros call c. split; [reflexivity|]. split; [|reflexivity].
  exact (@X12_output_column_name Sample.builtins Sample.labels call c eq_refl).
Defined.

(** ** One null level, one catch-all *)

Lemma Datediff_create_levels self :
  DatediffAtThresholds.create_comparison_levels self
  = [ NullLevel
        (if DatediffAtThresholds.invalid_dates_as_null self
         then try_parse_date (DatediffAtThresholds.col_expression self)
                (DatediffAtThresholds.date_format self)
         else DatediffAtThresholds.col_expression self) None None;
      ExactMatchLevel (DatediffAtThresholds.col_expression self)
        (Some (DatediffAtThresholds.term_frequency_adjustments self)) ]
    ++ datediff_levels
         (if DatediffAtThresholds.cast_strings_to_dates self
          then try_parse_date (DatediffAtThresholds.col_expression self)
                 (DatediffAtThresholds.date_format self)
          else DatediffAtThresholds.col_expression self)
         (DatediffAtThresholds.date_thresholds self)
         (DatediffAtThresholds.date_metrics self)
    ++ [ ElseLevel ].
Proof. reflexivity. Qed.

(** The distance levels of a returned list are distance levels. *)
Lemma Postcode_create_Ok_km self levels :
  PostcodeComparison.create_comparison_levels self = Ok levels →
  ∃ full km, PostcodeComparison.column self "postcode" = Ok full
             ∧ levels = Postcode_levels self full km
             ∧ Forall (λ x, is_distance_in_km x = true) km.
Proof.
  unfold PostcodeComparison.create_comparison_levels, Postcode_levels,
    optional_level. intros Hc.
  destruct (PostcodeComparison.column self "postcode") as [full|]; [|discriminate].
  simpl in Hc. exists full.
  destruct (PostcodeComparison.km_thresholds self) as [km|]; [|discriminate].
  simpl in Hc. destruct (nonempty km).
  - destruct (map_getitem _ "latitude") as [lat|]; [|discriminate].
    destruct (map_getitem _ "longitude") as [long|]; [|discriminate].
    simpl in Hc. injection Hc as <-.
    exists (DistanceInKMLevel lat long <$> km). split; [done|]. split.
    + destruct (PostcodeComparison.full_match self),
        (PostcodeComparison.sector_match self),
        (PostcodeComparison.district_match self),
        (PostcodeComparison.area_match self);
        simpl; rewrite <- ?app_assoc; reflexivity.
    + apply Forall_fmap, Forall_true. by intros t.
  - simpl in Hc. injection Hc as <-. exists []. split; [done|].
    split; [|constructor].
    destruct (PostcodeComparison.full_match self),
      (PostcodeComparison.sector_match self),
      (PostcodeComparison.district_match self),
      (PostcodeComparison.area_match self); simpl; reflexivity.
Qed.

Lemma filter_delimiters_fuzzy cls col thresholds :
  List.filter is_null (fuzzy_levels_on cls col thresholds) = []
  ∧ List.filter is_else (fuzzy_levels_on cls col thresholds) = [].
Proof.
  split; apply (filter_other_kind _ is_fuzzy);
    try apply fuzzy_levels_on_fuzzy; by intros [].
Qed.

Lemma filter_delimiters_datediff col thresholds metrics :
  List.filter is_null (datediff_levels col thresholds metrics) = []
  ∧ List.filter is_else (datediff_levels col thresholds metrics) = [].
Proof.
  split; apply (filter_other_kind _ is_datediff);
    try apply datediff_levels_datediff; by intros [].
Qed.

Lemma filter_delimiters_km km :
  Forall (λ x, is_distance_in_km x = true) km →
  List.filter is_null km = [] ∧ List.filter is_else km = [].
Proof.
  intros Hkm.
  split; apply (filter_other_kind _ is_distance_in_km); try done; by intros [].
Qed.

Ltac count_kind :=
  rewrite ?List.filter_app;
  rewrite ?filter_optional_none by done;
  rewrite ?(proj1 (filter_delimiters_fuzzy _ _ _)),
    ?(proj2 (filter_delimiters_fuzzy _ _ _)),
    ?(proj1 (filter_delimiters_datediff _ _ _)),
    ?(proj2 (filter_delimiters_datediff _ _ _));
  try reflexivity.

Lemma Date_levels_delimited `{ColumnNames} self : delimited (Date_levels self).
Proof.
  unfold delimited, Date_levels. cbv zeta.
  split; [by eexists|]. split; count_kind.
Qed.

Lemma Email_levels_delimited self : delimited (Email_levels self).
Proof.
  unfold delimited, Email_levels. cbv zeta.
  split; [by eexists|].
  split; count_kind; by destruct (EmailComparison.username_fuzzy self); count_kind.
Qed.

Lemma Postcode_levels_delimited self full km :
  Forall (λ x, is_distance_in_km x = true) km →
  delimited (Postcode_levels self full km).
Proof.
  intros Hkm. unfold delimited, Postcode_levels.
  split; [by eexists|].
  destruct (filter_delimiters_km km Hkm) as [Hnull Helse].
  split; count_kind; by rewrite ?Hnull, ?Helse.
Qed.

(** X13.  Every comparison other than a CustomComparison returns a list
    that starts with a null level, has no second null level, and has exactly
    one [ElseLevel]. *)
Theorem X13_one_null_level_one_catch_all `{PyBuiltins} `{ColumnNames} call c levels :
  construct call = Ok c →
  is_custom c = false →
  create_comparison_levels c = Ok levels →
  (∃ x, head levels = Some x ∧ is_null x = true)
  ∧ length (List.filter is_null levels) = 1%nat
  ∧ length (List.filter is_else levels) = 1%nat.
Proof.
  destruct call as [name cls descr|a|a|a|a|a|a]; simpl; intros Hc Hcustom Hl.
  - injection Hc as <-. discriminate Hcustom.
  - injection Hc as <-. injection Hl as <-.
    split; [by eexists|]. by split.
  - injection Hc as <-. injection Hl as <-.
    unfold LevenshteinAtThresholds.create_comparison_levels.
    split; [by eexists|].
    split; rewrite !List.filter_app;
      rewrite (filter_none _ (_ <$> _))
        by (apply Forall_fmap, Forall_true; by intros t); reflexivity.
  - injection Hc as <-. injection Hl as <-. rewrite Datediff_create_levels.
    split; [by eexists|]. split; count_kind.
  - destruct (DateComparison.init a) as [self|] eqn:Hi; [|discriminate].
    injection Hc as <-. simpl in Hl.
    rewrite (Date_create_levels self (Date_init_attributes_set _ _ Hi)) in Hl.
    injection Hl as <-. apply Date_levels_delimited.
  - injection Hc as <-. simpl in Hl.
    destruct (Postcode_create_Ok_km _ _ Hl) as (full & km & _ & -> & Hkm).
    by apply Postcode_levels_delimited.
  - destruct (EmailComparison.init a) as [self|] eqn:Hi; [|discriminate].
    injection Hc as <-. simpl in Hl.
    rewrite (Email_create_levels self (Email_init_attributes_set _ _ Hi)) in Hl.
    injection Hl as <-. apply Email_levels_delimited.
Qed.

(** The default DateComparison. *)
Lemma X13_one_null_level_one_catch_all_witness :
  let dob := {| sql_expression := "dob"; operations := [] |} in
  let call := NewDate (DateComparison.defaults (ColName "dob")) in
  let c :=
    Date {| DateComparison.fuzzy_thresholds := [VInt 1];
            DateComparison.date_thresholds := [VInt 1; VInt 1; VInt 10];
            DateComparison.date_metrics := [VStr "month"; VStr "year"; VStr "year"];
            DateComparison.date_format := None;
            DateComparison.invalid_dates_as_null := false;
            DateComparison.separate_1st_january := false;
            DateComparison.exact_match := true;
            DateComparison.fuzzy_level := Some DamerauLevenshteinCls;
            DateComparison.fuzzy_metric := Some "damerau_levenshtein";
            DateComparison.col_expression := dob |} in
  let levels :=
    [ NullLevel dob (Some VNone) (Some false);
      ExactMatchLevel dob None;
      DamerauLevenshteinLevel dob (VInt 1);
      DatediffLevel dob (VInt 1) (VStr "month");
      DatediffLevel dob (VInt 1) (VStr "year");
      DatediffLevel dob (VInt 10) (VStr "year");
      ElseLevel ] in
  @construct Sample.builtins call = Ok c
  ∧ @create_comparison_levels Sample.builtins Sample.names c = Ok levels
  ∧ (∃ x, head levels = Some x ∧ is_null x = true)
  ∧ length (List.filter is_null levels) = 1%nat
  ∧ length (List.filter is_else levels) = 1%nat.
Proof.
  intros dob call c levels. split; [reflexivity|]. split; [reflexivity|].
  exact (@X13_one_null_level_one_catch_all Sample.builtins Sample.names
           call c levels eq_refl eq_refl eq_refl).
Defined.

(** ** An EmailComparison without fuzzy thresholds *)

Section email_without_thresholds.
Context `{PyBuiltins}.

(** X14.  Built with an empty list of fuzzy thresholds, an EmailComparison
    ignores [fuzzy_metric] and [include_username_fuzzy_level]: its levels
    are the null level, the exact matches the three other flags switch on
    and the catch-all, and its description names these exact matches in the
    same order. *)
Theorem X14_email_without_fuzzy_thresholds a self :
  EmailComparison.init a = Ok self →
  ensure_is_iterable (EmailComparison.arg_fuzzy_thresholds a) = [] →
  let full := instantiate_if_str (EmailComparison.col_name a) in
  let pattern :=
    if EmailComparison.invalid_emails_as_null a
    then VStr (EmailComparison.arg_valid_email_regex a) else VNone in
  EmailComparison.create_comparison_levels self
  = Ok ([ NullLevel full (Some pattern) None ]
        ++ optional_level (EmailComparison.include_exact_match_level a)
             (ExactMatchLevel full None)
        ++ optional_level (EmailComparison.include_username_match_level a)
             (ExactMatchLevel (regex_extract full EmailComparison.USERNAME_REGEX) None)
        ++ optional_level (EmailComparison.include_domain_match_level a)
             (ExactMatchLevel (regex_extract full EmailComparison.DOMAIN_REGEX) None)
        ++ [ ElseLevel ])
  ∧ EmailComparison.create_description self
    = Ok ((if EmailComparison.include_exact_match_level a
           then "Exact match vs. " else "")
          +:+ (if EmailComparison.include_username_match_level a
               then "Exact username match different domain vs. " else "")
          +:+ (if EmailComparison.include_domain_match_level a
               then "Domain-only match vs. " else "")
          +:+ "anything else").
Proof.
  intros Hi Hempty full pattern.
  destruct (Email_init_fields _ _ Hi)
    as (Hft & Hre & Hex & Hum & Huf & Hdm & Hcol & _).
  rewrite Hempty in Hft. split.
  - rewrite (Email_create_levels self (Email_init_attributes_set _ _ Hi)).
    unfold Email_levels. cbv zeta.
    rewrite Hft, Hre, Hex, Hum, Hdm, Hcol. fold full. subst pattern.
    f_equal. f_equal.
    + by destruct (EmailComparison.invalid_emails_as_null a).
    + do 2 f_equal.
      destruct (EmailComparison.fuzzy_level self),
        (EmailComparison.username_fuzzy self); reflexivity.
  - unfold EmailComparison.create_description.
    rewrite Hft, Hex, Hum, Hdm. simpl.
    by destruct (EmailComparison.include_exact_match_level a),
      (EmailComparison.include_username_match_level a),
      (EmailComparison.include_domain_match_level a).
Qed.

End email_without_thresholds.

(** An unknown metric and the username fuzzy flag, with no thresholds. *)
Lemma X14_email_without_fuzzy_thresholds_witness :
  let email := {| sql_expression := "email"; operations := [] |} in
  let a :=
    {| EmailComparison.col_name := ColName "email";
       EmailComparison.invalid_emails_as_null := false;
       EmailComparison.arg_valid_email_regex := _DEFAULT_EMAIL_REGEX;
       EmailComparison.include_exact_match_level := true;
       EmailComparison.include_username_match_level := true;
       EmailComparison.include_username_fuzzy_level := true;
       EmailComparison.include_domain_match_level := false;
       EmailComparison.arg_fuzzy_metric := "soundex";
       EmailComparison.arg_fuzzy_thresholds := VList [] |} in
  let self :=
    {| EmailComparison.fuzzy_thresholds := [];
       EmailComparison.valid_email_regex := None;
       EmailComparison.exact_match := true;
       EmailComparison.username_match := true;
       EmailComparison.username_fuzzy := true;
       EmailComparison.domain_match := false;
       EmailComparison.fuzzy_level := None;
       EmailComparison.fuzzy_metric := None;
       EmailComparison.col_expression := email |} in
  @EmailComparison.init Sample.builtins a = Ok self
  ∧ EmailComparison.create_comparison_levels self
    = Ok [ NullLevel email (Some VNone) None;
           ExactMatchLevel email None;
           ExactMatchLevel (regex_extract email EmailComparison.USERNAME_REGEX) None;
           ElseLevel ]
  ∧ @EmailComparison.create_description Sample.builtins self
    = Ok "Exact match vs. Exact username match different domain vs. anything else".
Proof.
  intros email a self. split; [reflexivity|].
  exact (@X14_email_without_fuzzy_thresholds Sample.builtins a self eq_refl eq_refl).
Defined.

(** ** Descriptions of a DateComparison and its levels *)

Section date_descriptions.
Context `{PyBuiltins} `{ColumnNames}.




End date_descriptions.


(** ** The end of a description *)

Lemma bind_Ok_inv {A B} (m : result A) (k : A → result B) b :
  m ≫= k = Ok b → ∃ a, m = Ok a ∧ k a = Ok b.
Proof. destruct m as [a|e]; [by exists a | discriminate]. Qed.

Section description_end.
Context `{PyBuiltins} `{ColumnLabels}.

(** X17.  Whatever the flags and thresholds, a description that one of
    the comparisons other than CustomComparison returns ends with
    "anything else", as its list of levels ends with the catch-all. *)
Theorem X17_description_ends_with_anything_else c description :
  is_custom c = false →
  create_description c = Ok description →
  ∃ before, description = before +:+ "anything else".
Proof.
  destruct c as [self|self|self|self|self|self|self]; simpl;
    intros Hcustom Hd; [discriminate Hcustom| | | | | |].
  - injection Hd as <-. unfold ExactMatch.create_description.
    exists ("Exact match '" +:+ label (ExactMatch.col_expression self) +:+ "' vs. ").
    by rewrite !string_app_assoc.
  - injection Hd as <-. unfold LevenshteinAtThresholds.create_description.
    cbv zeta. eexists. by rewrite <- !string_app_assoc.
  - injection Hd as <-. unfold DatediffAtThresholds.create_description.
    eexists. by rewrite <- !string_app_assoc.
  - unfold DateComparison.create_description in Hd.
    apply bind_Ok_inv in Hd as (d1 & _ & Hd).
    apply bind_Ok_inv in Hd as (d2 & _ & Hd).
    injection Hd as <-. by eexists.
  - unfold PostcodeComparison.create_description in Hd.
    apply bind_Ok_inv in Hd as (km & _ & Hd).
    injection Hd as <-. by eexists.
  - unfold EmailComparison.create_description in Hd.
    apply bind_Ok_inv in Hd as (d1 & _ & Hd).
    injection Hd as <-. by eexists.
Qed.

End description_end.

(** The default EmailComparison. *)
Lemma X17_description_ends_with_anything_else_witness :
  let c :=
    Email {| EmailComparison.fuzzy_thresholds := [VInt 1];
             EmailComparison.valid_email_regex := None;
             EmailComparison.exact_match := true;
             EmailComparison.username_match := true;
             EmailComparison.username_fuzzy := true;
             EmailComparison.domain_match := false;
             EmailComparison.fuzzy_level := Some JaroWinklerCls;
             EmailComparison.fuzzy_metric := Some "jaro_winkler";
             EmailComparison.col_expression :=
               {| sql_expression := "email"; operations := [] |} |} in
  let description := "jaro_winkler on username at threshold 1 vs. anything else" in
  @create_description Sample.builtins Sample.labels c = Ok description
  ∧ ∃ before, description = before +:+ "anything else".
Proof.
  intros c description. split; [reflexivity|].
  exact (@X17_description_ends_with_anything_else Sample.builtins Sample.labels
           c description eq_refl eq_refl).
Defined.

(** ** A single blocking rule in place of a list *)

(** X18.  A single string or a single rule creator is handled as the list
    holding just it: the call returns the one blocking rule that
    [get_blocking_rule] gives for the string's [CustomRule], or for the
    creator, and raises what [get_blocking_rule] raises. *)
Theorem X18_single_blocking_rule `{PyTypeNames} `{RuleCompiler} sql_dialect :
  (∀ s,
     blocking_rule_args_to_list_of_blocking_rules (SingleArg (Data (VStr s))) sql_dialect
     = (λ rule, [rule]) <$> get_blocking_rule (CustomRule [VStr s] []) sql_dialect)
  ∧ (∀ r,
       blocking_rule_args_to_list_of_blocking_rules (SingleArg (RuleCreator r)) sql_dialect
       = (λ rule, [rule]) <$> get_blocking_rule r sql_dialect)
  ∧ (∀ o,
       isinstance_str o = true ∨ isinstance_BlockingRuleCreator o = true →
       blocking_rule_args_to_list_of_blocking_rules (SingleArg o) sql_dialect
       = blocking_rule_args_to_list_of_blocking_rules (ListArg [o]) sql_dialect).
Proof.
  split; [|split].
  - intros s. unfold blocking_rule_args_to_list_of_blocking_rules. simpl.
    by destruct (get_blocking_rule _ _).
  - intros r. unfold blocking_rule_args_to_list_of_blocking_rules. simpl.
    by destruct (get_blocking_rule _ _).
  - intros [[]| |] [|]; done.
Qed.

(** One rule given as a string. *)
Lemma X18_single_blocking_rule_witness :
  let o := Data (VStr "l.name = r.name") in
  (isinstance_str o = true ∨ isinstance_BlockingRuleCreator o = true)
  ∧ @blocking_rule_args_to_list_of_blocking_rules Sample.type_names Sample.compiler
      (SingleArg o) "duckdb"
    = @blocking_rule_args_to_list_of_blocking_rules Sample.type_names Sample.compiler
        (ListArg [o]) "duckdb"
  ∧ @blocking_rule_args_to_list_of_blocking_rules Sample.type_names Sample.compiler
      (SingleArg o) "duckdb"
    = Ok [("l.name = r.name", "duckdb")].
Proof.
  intros o.
  assert (Hstr : isinstance_str o = true ∨ isinstance_BlockingRuleCreator o = true)
    by (left; reflexivity).
  split; [exact Hstr|]. split.
  - exact (proj2 (proj2 (@X18_single_blocking_rule Sample.type_names Sample.compiler
                           "duckdb")) o Hstr).
  - exact (proj1 (@X18_single_blocking_rule Sample.type_names Sample.compiler
                    "duckdb") "l.name = r.name").
Defined.


(** ** Exact matches of a PostcodeComparison *)

(** X19.  The exact-match levels a PostcodeComparison returns are, in this
    order, the ones on the full postcode, on its sector, on its district and
    on its area, each present exactly when its flag is set: a more specific
    match is always listed before a less specific one. *)
Theorem X19_postcode_exact_levels_by_specificity a levels :
  PostcodeComparison.create_comparison_levels (PostcodeComparison.init a) = Ok levels →
  let full := instantiate_if_str (PostcodeComparison.col_name a) in
  List.filter is_exact_match levels
  = optional_level (PostcodeComparison.include_full_match_level a)
      (ExactMatchLevel full None)
    ++ optional_level (PostcodeComparison.include_sector_match_level a)
         (ExactMatchLevel (regex_extract full PostcodeComparison.SECTOR_REGEX) None)
    ++ optional_level (PostcodeComparison.include_district_match_level a)
         (ExactMatchLevel (regex_extract full PostcodeComparison.DISTRICT_REGEX) None)
    ++ optional_level (PostcodeComparison.include_area_match_level a)
         (ExactMatchLevel (regex_extract full PostcodeComparison.AREA_REGEX) None).
Proof.
  intros Hl full.
  destruct (Postcode_create_Ok_km _ _ Hl) as (full' & km & Hfull & -> & Hkm).
  rewrite Postcode_init_postcode in Hfull. injection Hfull as <-. fold full.
  unfold Postcode_levels. rewrite !List.filter_app.
  rewrite (filter_other_kind _ is_distance_in_km km) by (done || by intros []).
  simpl. rewrite !app_nil_r.
  assert (Hopt : ∀ flag c, is_exact_match c = true →
                           List.filter is_exact_match (optional_level flag c)
                           = optional_level flag c).
  { intros flag c Hc. destruct flag; simpl; by rewrite ?Hc. }
  by rewrite !Hopt.
Qed.

(** Only the district and the area switched on, with one distance. *)
Lemma X19_postcode_exact_levels_by_specificity_witness :
  let postcode := {| sql_expression := "postcode"; operations := [] |} in
  let a :=
    {| PostcodeComparison.col_name := ColName "postcode";
       PostcodeComparison.invalid_postcodes_as_null := false;
       PostcodeComparison.arg_valid_postcode_regex := _VALID_POSTCODE_REGEX;
       PostcodeComparison.include_full_match_level := false;
       PostcodeComparison.include_sector_match_level := false;
       PostcodeComparison.include_district_match_level := true;
       PostcodeComparison.include_area_match_level := true;
       PostcodeComparison.lat_col := Some (ColName "lat");
       PostcodeComparison.long_col := Some (ColName "long");
       PostcodeComparison.arg_km_thresholds := VInt 5 |} in
  let levels :=
    [ NullLevel postcode (Some VNone) None;
      ExactMatchLevel (regex_extract postcode PostcodeComparison.DISTRICT_REGEX) None;
      ExactMatchLevel (regex_extract postcode PostcodeComparison.AREA_REGEX) None;
      DistanceInKMLevel (Some {| sql_expression := "lat"; operations := [] |})
        (Some {| sql_expression := "long"; operations := [] |}) (VInt 5);
      ElseLevel ] in
  PostcodeComparison.create_comparison_levels (PostcodeComparison.init a) = Ok levels
  ∧ List.filter is_exact_match levels
    = [ ExactMatchLevel (regex_extract postcode PostcodeComparison.DISTRICT_REGEX) None;
        ExactMatchLevel (regex_extract postcode PostcodeComparison.AREA_REGEX) None ].
Proof.
  intros postcode a levels. split; [reflexivity|].
  exact (X19_postcode_exact_levels_by_specificity a levels eq_refl).
Defined.
